(** * Houston housing dashboard: the FRED fetch / transform / aggregate pipeline

    A shallow embedding of [lib/fred-api.ts] together with the parts of the
    ECMAScript runtime it calls (Number, parseFloat, toFixed, Math.round,
    toLocaleString, Date), and the properties of the pipeline stated in
    the specification.

    Conventions.
    - An ECMAScript Number is an IEEE 754 binary64 value; it is modelled by
      [spec_float] with the operations of [SpecFloat] at precision 53, so
      that rounding, infinities, NaN and the two zeros are those of the
      language.
    - An ECMAScript String is modelled by [string]; the texts handled here
      (dates, decimal numerals, identifiers) are ASCII.
    - A time value is an integral number of milliseconds since the epoch,
      or NaN (an invalid Date): [option Z].
    - [limit?: number] parameters are point or month counts: [option Z],
      [None] standing for an omitted argument.
    - Exceptions, the log of outbound requests and the console are
      threaded through a small monad; [await] is sequencing. *)

From Stdlib Require Import ZArith List String Ascii Bool Lia.
From Stdlib Require Import Floats.SpecFloat.
Import ListNotations.

Local Open Scope string_scope.
Local Open Scope Z_scope.

(** ** Decimal text *)

Module Text.

Definition isDigit (c : ascii) : bool :=
  let n := Z.of_nat (nat_of_ascii c) in (48 <=? n) && (n <=? 57).

Definition digitValue (c : ascii) : Z := Z.of_nat (nat_of_ascii c) - 48.

Definition digitChar (d : Z) : ascii := ascii_of_nat (Z.to_nat (48 + d)).

(** Longest prefix of decimal digits, and what follows it. *)
Fixpoint spanDigits (s : string) : string * string :=
  match s with
  | String c r =>
      if isDigit c then let '(d, t) := spanDigits r in (String c d, t)
      else (EmptyString, s)
  | EmptyString => (EmptyString, EmptyString)
  end.

Fixpoint allDigits (s : string) : bool :=
  match s with
  | String c r => isDigit c && allDigits r
  | EmptyString => true
  end.

(** Value of a digit string read in base ten, left to right. *)
Fixpoint digitsValue (acc : Z) (s : string) : Z :=
  match s with
  | String c r => digitsValue (10 * acc + digitValue c) r
  | EmptyString => acc
  end.

Fixpoint posDigits (fuel : nat) (n : Z) (acc : string) : string :=
  match fuel with
  | O => acc
  | S k =>
      let acc' := String (digitChar (n mod 10)) acc in
      if n <? 10 then acc' else posDigits k (n / 10) acc'
  end.

(** Decimal digits of a non-negative integer, "0" for zero. *)
Definition natString (n : Z) : string :=
  posDigits (S (Z.to_nat (Z.log2 n))) n EmptyString.

(** [${n}] for an integral Number within the exact range. *)
Definition intString (n : Z) : string :=
  if n <? 0 then "-" ++ natString (- n) else natString n.

Fixpoint replicate (n : nat) (c : ascii) : string :=
  match n with
  | O => EmptyString
  | S k => String c (replicate k c)
  end.

(** [s.padStart(n, c)] *)
Definition padLeft (n : nat) (c : ascii) (s : string) : string :=
  replicate (n - String.length s) c ++ s.

Fixpoint startsWith (p s : string) : option string :=
  match p, s with
  | EmptyString, _ => Some s
  | String a p', String b s' => if Ascii.eqb a b then startsWith p' s' else None
  | String _ _, EmptyString => None
  end.

(** Thousands grouping of a digit string: a comma before every group of
    three digits counted from the right. *)
Fixpoint groupFrom (s : string) (k : nat) : string :=
  match s with
  | EmptyString => EmptyString
  | String c r =>
      match k with
      | O => String c (if (0 <? Z.of_nat (String.length r))%Z
                       then String "," (groupFrom r 2) else EmptyString)
      | S k' => String c (groupFrom r k')
      end
  end.

Definition grouped (s : string) : string :=
  groupFrom s ((String.length s + 2) mod 3).

(** A non-negative number [n] of tenths written with one decimal. *)
Definition tenths (n : Z) : string :=
  natString (n / 10) ++ "." ++ natString (n mod 10).

End Text.

(** ** ECMAScript Number: IEEE 754 binary64 *)

Module JsNumber.

Definition prec : Z := 53.
Definition emax : Z := 1024.

Definition number : Type := spec_float.

Definition nan : number := S754_nan.
Definition zero : number := S754_zero false.
Definition infinity (neg : bool) : number := S754_infinity neg.

Definition add : number -> number -> number := SFadd prec emax.
Definition sub : number -> number -> number := SFsub prec emax.
Definition mul : number -> number -> number := SFmul prec emax.
Definition div : number -> number -> number := SFdiv prec emax.

(** [x === y], [x < y], [x > y], [x >= y] on Numbers. *)
Definition strictEq (x y : number) : bool := SFeqb x y.
Definition lt (x y : number) : bool := SFltb x y.
Definition gt (x y : number) : bool := SFltb y x.
Definition ge (x y : number) : bool := SFleb y x.

(** The Number value for an integer (round to nearest, ties to even). *)
Definition ofZ (z : Z) : number := binary_normalize prec emax z 0 false.

(** The Number value for the ratio [n / d] of two positive integers,
    rounded once from the exact quotient: the quotient is computed with
    at least [prec + 2] bits and the position of the remainder. *)
Definition ofRatio (neg : bool) (n d : positive) : number :=
  let s := Z.max 0 (prec + 2 + Zdigits2 (Zpos d) - Zdigits2 (Zpos n)) in
  let '(q, r) := Z.div_eucl (Zpos n * 2 ^ s) (Zpos d) in
  binary_round_aux prec emax neg q (- s) (new_location (Zpos d) r).

(** The Number value for the decimal [m * 10 ^ e10] with [0 <= m]. *)
Definition ofDecimal (neg : bool) (m e10 : Z) : number :=
  match m with
  | Zpos p =>
      if 0 <=? e10 then binary_round prec emax neg (Z.to_pos (Zpos p * 10 ^ e10)) 0
      else ofRatio neg p (Z.to_pos (10 ^ (- e10)))
  | _ => S754_zero neg
  end.

(** ToBoolean on a Number: false for +0, -0 and NaN. *)
Definition truthy (x : number) : bool :=
  match x with
  | S754_zero _ | S754_nan => false
  | _ => true
  end.

(** *** parseFloat *)

Definition isWhiteSpace (c : ascii) : bool :=
  let n := nat_of_ascii c in
  (Nat.eqb n 32 || ((Nat.leb 9 n) && (Nat.leb n 13)))%bool.

Fixpoint trimStart (s : string) : string :=
  match s with
  | String c r => if isWhiteSpace c then trimStart r else s
  | EmptyString => s
  end.

(** ExponentPart: [e] or [E], an optional sign and at least one digit;
    0 when the text does not continue with a complete exponent. *)
Definition exponentPart (s : string) : Z :=
  match s with
  | String c r =>
      if (Ascii.eqb c "e" || Ascii.eqb c "E")%bool then
        let '(neg, r') :=
          match r with
          | String "+" t => (false, t)
          | String "-" t => (true, t)
          | _ => (false, r)
          end in
        let '(ds, _) := Text.spanDigits r' in
        match ds with
        | EmptyString => 0
        | _ => if neg then - Text.digitsValue 0 ds else Text.digitsValue 0 ds
        end
      else 0
  | EmptyString => 0
  end.

(** The longest prefix that is a StrUnsignedDecimalLiteral. *)
Definition unsignedLiteral (neg : bool) (s : string) : number :=
  match Text.startsWith "Infinity" s with
  | Some _ => infinity neg
  | None =>
      let '(ip, r1) := Text.spanDigits s in
      match r1 with
      | String "." r2 =>
          let '(fp, r3) := Text.spanDigits r2 in
          match ip, fp with
          | EmptyString, EmptyString => nan
          | _, _ =>
              ofDecimal neg (Text.digitsValue 0 (ip ++ fp))
                        (exponentPart r3 - Z.of_nat (String.length fp))
          end
      | _ =>
          match ip with
          | EmptyString => nan
          | _ => ofDecimal neg (Text.digitsValue 0 ip) (exponentPart r1)
          end
      end
  end.

Definition parseFloat (s : string) : number :=
  match trimStart s with
  | String "+" r => unsignedLiteral false r
  | String "-" r => unsignedLiteral true r
  | t => unsignedLiteral false t
  end.


(** *** Exact values *)

(** [floor (|x| * 10 ^ f + 1/2)] for a finite [x = m * 2 ^ e]: the integer
    [n] for which [n / 10 ^ f - |x|] is as close to zero as possible, the
    larger one when two are equally close. *)
Definition scaledHalfUp (m : positive) (e : Z) (f : nat) : Z :=
  let t := Zpos m * 10 ^ Z.of_nat f in
  if 0 <=? e then t * 2 ^ e
  else (2 * t + 2 ^ (- e)) / 2 ^ (1 - e).

(** [floor |x|] for a finite [x = m * 2 ^ e]. *)
Definition floorMag (m : positive) (e : Z) : Z :=
  if 0 <=? e then Zpos m * 2 ^ e else Zpos m / 2 ^ (- e).

(** Number of decimal digits of a positive integer. *)
Fixpoint countDigits (fuel : nat) (x : Z) : Z :=
  match fuel with
  | O => 1
  | S k => if x <? 10 then 1 else 1 + countDigits k (x / 10)
  end.

Definition decimalLength (x : Z) : Z := countDigits (Z.to_nat (Z.log2 x)) x.

(** *** Number::toString on integral values

    The digits [s], their count [k] and the decimal exponent [n] with
    [10 ^ (k - 1) <= s < 10 ^ k], such that [s * 10 ^ (n - k)] is read back
    as [x], [k] is as small as possible and, among those, the value is
    closest to [x] (the even [s] on a tie). [x] is a positive integer that
    is a Number value. For a [k], only the two multiples of [10 ^ (n - k)]
    around [x] can be closest. *)
Definition digitCandidate (x n k : Z) : option (Z * Z * Z) :=
  let p := 10 ^ (n - k) in
  let lo := x / p in
  let hi := lo + 1 in
  let okLo := SFeqb (ofZ (lo * p)) (ofZ x) in
  let okHi := SFeqb (ofZ (hi * p)) (ofZ x) in
  let pick (s : Z) := if s =? 10 ^ k then (10 ^ (k - 1), k, n + 1) else (s, k, n) in
  match okLo, okHi with
  | false, false => None
  | true, false => Some (pick lo)
  | false, true => Some (pick hi)
  | true, true =>
      match (x - lo * p) ?= (hi * p - x) with
      | Lt => Some (pick lo)
      | Gt => Some (pick hi)
      | Eq => Some (pick (if Z.even lo then lo else hi))
      end
  end.

Fixpoint searchDigits (fuel : nat) (x n k : Z) : Z * Z * Z :=
  match fuel with
  | O => (x, n, n)
  | S fuel' =>
      if n <=? k then (x, n, n)
      else match digitCandidate x n k with
           | Some r => r
           | None => searchDigits fuel' x n (k + 1)
           end
  end.

Definition shortestDigits (x : Z) : Z * Z * Z :=
  searchDigits 17 x (decimalLength x) 1.

(** Trailing zeros carry no information: [s] is stripped of them. *)
Fixpoint stripZeros (fuel : nat) (s k : Z) : Z * Z :=
  match fuel with
  | O => (s, k)
  | S fuel' =>
      if (1 <? k) && (s mod 10 =? 0) then stripZeros fuel' (s / 10) (k - 1)
      else (s, k)
  end.

Definition integerDigits (x : Z) : Z * Z * Z :=
  let '(s, k, n) := shortestDigits x in
  let '(s', k') := stripZeros (Z.to_nat k) s k in
  (s', k', n).

(** Number::toString (radix 10) for a positive integral Number. *)
Definition positiveIntegerToString (x : Z) : string :=
  let '(s, k, n) := integerDigits x in
  let ds := Text.natString s in
  if n <=? 21 then ds ++ Text.replicate (Z.to_nat (n - k)) "0"
  else
    let e := "e+" ++ Text.natString (n - 1) in
    match ds with
    | String d EmptyString => String d e
    | String d r => String d ("." ++ r ++ e)
    | EmptyString => e
    end.

(** *** Number.prototype.toFixed *)

Definition toFixedMagnitude (m : positive) (e : Z) (f : nat) : string :=
  if 10 ^ 21 <=? floorMag m e then positiveIntegerToString (floorMag m e)
  else
    let ds := Text.padLeft (S f) "0" (Text.natString (scaledHalfUp m e f)) in
    match f with
    | O => ds
    | _ =>
        let k := (String.length ds - f)%nat in
        substring 0 k ds ++ "." ++ substring k f ds
    end.

Definition toFixed (x : number) (f : nat) : string :=
  match x with
  | S754_nan => "NaN"
  | S754_infinity neg => if neg then "-Infinity" else "Infinity"
  | S754_zero _ =>
      match f with
      | O => "0"
      | _ => "0." ++ Text.replicate f "0"
      end
  | S754_finite neg m e =>
      (if neg then "-" else "") ++ toFixedMagnitude m e f
  end.

(** *** Math.round

    [floor (x + 1/2)], computed on the exact value; a result of zero keeps
    the sign of [x]. *)

Definition round (x : number) : number :=
  match x with
  | S754_finite neg m e =>
      if 0 <=? e then x
      else
        let r := (2 * (if neg then Zneg m else Zpos m) + 2 ^ (- e)) / 2 ^ (1 - e) in
        binary_normalize prec emax r 0 neg
  | _ => x
  end.

(** *** Number.prototype.toLocaleString('en-US') on the results of
    [Math.round]: grouped decimal digits, without exponent. *)
Definition toLocaleString (x : number) : string :=
  match x with
  | S754_nan => "NaN"
  | S754_infinity neg => if neg then "-∞" else "∞"
  | S754_zero neg => if neg then "-0" else "0"
  | S754_finite neg m e =>
      let '(s, k, n) := integerDigits (floorMag m e) in
      (if neg then "-" else "") ++
      Text.grouped (Text.natString s ++ Text.replicate (Z.to_nat (n - k)) "0")
  end.

End JsNumber.

(** ** ECMAScript Date: time values and the civil calendar *)

Module JsDate.

Definition msPerDay : Z := 86400000.

Definition Day (t : Z) : Z := t / msPerDay.
Definition TimeWithinDay (t : Z) : Z := t mod msPerDay.

Definition isLeapYear (y : Z) : bool :=
  (y mod 4 =? 0) && (negb (y mod 100 =? 0) || (y mod 400 =? 0)).

Definition DaysInYear (y : Z) : Z := if isLeapYear y then 366 else 365.

Definition DayFromYear (y : Z) : Z :=
  365 * (y - 1970) + (y - 1969) / 4 - (y - 1901) / 100 + (y - 1601) / 400.

Definition TimeFromYear (y : Z) : Z := msPerDay * DayFromYear y.

(** The largest [y] with [TimeFromYear y <= t]: the mean year of 365.2425
    days gives an estimate that is off by at most one. *)
Definition YearFromTime (t : Z) : Z :=
  let d := Day t in
  let y := 1970 + (400 * d) / 146097 in
  if DayFromYear (y + 1) <=? d then y + 1
  else if DayFromYear y <=? d then y
  else y - 1.

Definition InLeapYear (t : Z) : bool := isLeapYear (YearFromTime t).

Definition DayWithinYear (t : Z) : Z := Day t - DayFromYear (YearFromTime t).

(** Day within the year on which month [m] (0 = January) starts; 12 gives
    the length of the year. *)
Definition monthStart (leap : bool) (m : Z) : Z :=
  let l := if leap then 1 else 0 in
  match m with
  | 0 => 0
  | 1 => 31
  | 2 => 59 + l
  | 3 => 90 + l
  | 4 => 120 + l
  | 5 => 151 + l
  | 6 => 181 + l
  | 7 => 212 + l
  | 8 => 243 + l
  | 9 => 273 + l
  | 10 => 304 + l
  | 11 => 334 + l
  | _ => 365 + l
  end.

Fixpoint monthOfDay (leap : bool) (d : Z) (fuel : nat) (m : Z) : Z :=
  match fuel with
  | O => m
  | S k => if d <? monthStart leap (m + 1) then m else monthOfDay leap d k (m + 1)
  end.

Definition MonthFromTime (t : Z) : Z :=
  monthOfDay (InLeapYear t) (DayWithinYear t) 11 0.

Definition DateFromTime (t : Z) : Z :=
  DayWithinYear t - monthStart (InLeapYear t) (MonthFromTime t) + 1.

Definition MakeDay (year month date : Z) : Z :=
  let ym := year + month / 12 in
  let mn := month mod 12 in
  DayFromYear ym + monthStart (isLeapYear ym) mn + date - 1.

Definition MakeDate (day time : Z) : Z := day * msPerDay + time.

Definition TimeClip (t : Z) : option Z :=
  if Z.abs t <=? 8640000000000000 then Some t else None.

Definition DaysInMonth (y m : Z) : Z :=
  monthStart (isLeapYear y) (m + 1) - monthStart (isLeapYear y) m.

(** *** The date-only form [YYYY-MM-DD] of the Date Time String Format *)

Definition fixedDigits (n : nat) (s : string) : option (Z * string) :=
  let d := substring 0 n s in
  let '(ds, rest) := Text.spanDigits d in
  if (Nat.eqb (String.length ds) n)%nat
  then Some (Text.digitsValue 0 ds, substring n (String.length s - n) s)
  else None.

Definition isoDateOnly (s : string) : option (Z * Z * Z) :=
  match fixedDigits 4 s with
  | Some (y, String "-" r1) =>
      match fixedDigits 2 r1 with
      | Some (m, String "-" r2) =>
          match fixedDigits 2 r2 with
          | Some (d, EmptyString) =>
              if (1 <=? m) && (m <=? 12) && (1 <=? d) && (d <=? DaysInMonth y (m - 1))
              then Some (y, m, d) else None
          | _ => None
          end
      | _ => None
      end
  | _ => None
  end.

(** *** The host: clock, time zone, and what Date.parse does with text
    that is not a legal date-only form (implementation-defined in part). *)
Record Zone : Type := {
  LocalTZA : Z -> bool -> Z;
  parseOther : string -> option Z
}.

Section InZone.

Variable zone : Zone.

Definition LocalTime (t : Z) : Z := t + LocalTZA zone t true.
Definition UTC (t : Z) : Z := t - LocalTZA zone t false.

(** [new Date(text).getTime()]: a date-only form is UTC midnight. *)
Definition parse (s : string) : option Z :=
  match isoDateOnly s with
  | Some (y, m, d) => TimeClip (MakeDate (MakeDay y (m - 1) d) 0)
  | None => parseOther zone s
  end.

Definition getMonth (t : Z) : Z := MonthFromTime (LocalTime t).
Definition getFullYear (t : Z) : Z := YearFromTime (LocalTime t).

(** [d.setFullYear(year)] on a valid date; the new time value. *)
Definition setFullYear (t : Z) (year : Z) : option Z :=
  let l := LocalTime t in
  TimeClip (UTC (MakeDate (MakeDay year (MonthFromTime l) (DateFromTime l))
                          (TimeWithinDay l))).

(** [d.setMonth(month)] on a valid date; the new time value. *)
Definition setMonth (t : Z) (month : Z) : option Z :=
  let l := LocalTime t in
  TimeClip (UTC (MakeDate (MakeDay (YearFromTime l) month (DateFromTime l))
                          (TimeWithinDay l))).

End InZone.

(** [d.toISOString().split('T')[0]] on a valid date. *)
Definition isoDatePart (t : Z) : string :=
  let y := YearFromTime t in
  let ys := if (0 <=? y) && (y <=? 9999)
            then Text.padLeft 4 "0" (Text.natString y)
            else (if y <? 0 then "-" else "+") ++
                 Text.padLeft 6 "0" (Text.natString (Z.abs y)) in
  ys ++ "-" ++ Text.padLeft 2 "0" (Text.natString (MonthFromTime t + 1))
     ++ "-" ++ Text.padLeft 2 "0" (Text.natString (DateFromTime t)).

End JsDate.

(** ** Exceptions, promises and the outside world *)

Module Effect.

(** A thrown value: an [Error] with its message. *)
Record JsError : Type := { message : string }.

Inductive Completion (A : Type) : Type :=
| Normal (a : A)
| Throw (e : JsError).

Arguments Normal {A} a.
Arguments Throw {A} e.

(** An outbound GET: the endpoint and the query parameters in the order in
    which [URLSearchParams] serialises them. *)
Record Request : Type := {
  endpoint : string;
  query : list (string * string)
}.

(** What the process has done so far that can be observed from outside. *)
Record World : Type := {
  requests : list Request;
  console : list string
}.

Definition M (A : Type) : Type := World -> Completion A * World.

Definition ret {A} (a : A) : M A := fun w => (Normal a, w).

Definition throw {A} (e : JsError) : M A := fun w => (Throw e, w).

Definition bind {A B} (m : M A) (k : A -> M B) : M B :=
  fun w =>
    match m w with
    | (Normal a, w') => k a w'
    | (Throw e, w') => (Throw e, w')
    end.

Definition tryCatch {A} (body : M A) (handler : JsError -> M A) : M A :=
  fun w =>
    match body w with
    | (Normal a, w') => (Normal a, w')
    | (Throw e, w') => handler e w'
    end.

Definition lift {A} (c : Completion A) : M A := fun w => (c, w).

Definition consoleError (line : string) : M unit :=
  fun w => (Normal tt, {| requests := requests w; console := (console w ++ [line])%list |}).

Definition issue (r : Request) : M unit :=
  fun w => (Normal tt, {| requests := (requests w ++ [r])%list; console := console w |}).

(** The outcome of one promise under [Promise.allSettled]. *)
Inductive Settled (A : Type) : Type :=
| Fulfilled (value : A)
| Rejected (reason : JsError).

Arguments Fulfilled {A} value.
Arguments Rejected {A} reason.

Definition settled {A} (c : Completion A) : Settled A :=
  match c with
  | Normal a => Fulfilled a
  | Throw e => Rejected e
  end.

Definition settle {A} (m : M A) : M (Settled A) :=
  fun w => (Normal (settled (fst (m w))), snd (m w)).

End Effect.

Declare Scope effect_scope.
Delimit Scope effect_scope with effect.
Notation "x <- m ;; k" := (Effect.bind m (fun x => k))
  (at level 61, m at next level, right associativity) : effect_scope.
Notation "m ;;; k" := (Effect.bind m (fun _ => k))
  (at level 61, right associativity) : effect_scope.

(** ** lib/fred-api.ts *)

Module FredApi.

Import JsNumber Effect.

Record FREDObservation : Type := {
  date : string;
  value : string
}.

(** The parsed body of a response. At run time nothing forces the
    [observations] member to be there: [None] is a body without it. *)
Record FREDResponse : Type := {
  observations : option (list FREDObservation)
}.

(** lib/types.ts: [ChartDataPoint] with members [date] and [value] (the
    optional [label] is never written by this module). *)
Record ChartDataPoint : Type := {
  point_date : string;
  point_value : number
}.

(** ["positive" | "negative" | "neutral"] *)
Module ChangeType.
Inductive t : Type := positive | negative | neutral.
End ChangeType.

(** lib/types.ts: [HousingMetric]; [metric_value] is the member [value]. *)
Record HousingMetric : Type := {
  id : string;
  title : string;
  metric_value : string;
  change : string;
  changeType : ChangeType.t;
  description : string
}.

Record HousingData : Type := {
  metrics : list HousingMetric;
  housePriceIndex : list ChartDataPoint;
  activeListings : list ChartDataPoint;
  buildingPermits : list ChartDataPoint;
  rentCPI : list ChartDataPoint;
  unemploymentRate : list ChartDataPoint
}.

Definition FRED_BASE_URL : string :=
  "https://api.stlouisfed.org/fred/series/observations".

Module SERIES_IDS.
Definition housePriceIndex : string := "ATNHPIUS26420Q".
Definition activeListings : string := "ACTLISCOU26420".
Definition buildingPermits : string := "HOUS448BPPRIV".
Definition rentCPI : string := "CUUSA318SEHA".
Definition unemploymentRate : string := "HOUS448URN".
End SERIES_IDS.

(** *** The network as seen by [fetch] *)

Inductive Body : Type :=
| BodyFails (e : JsError)
| BodyJson (data : FREDResponse).

Record Response : Type := {
  ok : bool;
  status : Z;
  statusText : string;
  json : Body
}.

Inductive FetchOutcome : Type :=
| Rejects (e : JsError)
| Resolves (r : Response).

(** Everything the module reads from its surroundings. The clock is read
    several times while one request is served; the readings are taken to
    be the same instant [now]. *)
Record Host : Type := {
  zone : JsDate.Zone;
  now : Z;
  FRED_API_KEY : option string;
  fetch : Request -> FetchOutcome
}.

(** [obs.value !== '.' && obs.value !== ''] *)
Definition isValid (obs : FREDObservation) : bool :=
  negb (String.eqb (value obs) ".") && negb (String.eqb (value obs) "").

(** [array.slice(start)] *)
Definition slice {A : Type} (start : Z) (l : list A) : list A :=
  let len := Z.of_nat (List.length l) in
  let k := if start <? 0 then Z.max (len + start) 0 else Z.min start len in
  skipn (Z.to_nat k) l.

Definition months : list string :=
  ["Jan"; "Feb"; "Mar"; "Apr"; "May"; "Jun";
   "Jul"; "Aug"; "Sep"; "Oct"; "Nov"; "Dec"].

Section WithHost.

Variable host : Host.

(** The template [`${months[date.getMonth()]} ${date.getFullYear()}`] for
    [date = new Date(text)]; an invalid date has month and year NaN. *)
Definition monthYear (text : string) : string :=
  match JsDate.parse (zone host) text with
  | Some t =>
      nth (Z.to_nat (JsDate.getMonth (zone host) t)) months "undefined"
      ++ " " ++ Text.intString (JsDate.getFullYear (zone host) t)
  | None => "undefined NaN"
  end.

Definition toPoint (obs : FREDObservation) : ChartDataPoint :=
  {| point_date := monthYear (date obs);
     point_value := parseFloat (value obs) |}.

Definition transformFREDData
    (observations : list FREDObservation) (limit : option Z) : list ChartDataPoint :=
  let validObservations := filter isValid observations in
  let dataToTransform :=
    match limit with
    | Some n => if n =? 0 then validObservations else slice (- n) validObservations
    | None => validObservations
    end in
  map toPoint dataToTransform.

Definition calculatePercentageChange (oldValue newValue : number) : string :=
  if strictEq oldValue zero then "+0.0%"
  else
    let change := mul (div (sub newValue oldValue) oldValue) (ofZ 100) in
    let sign := if ge change zero then "+" else "" in
    sign ++ toFixed change 1 ++ "%".

Definition formatNumber (value : number) : string := toLocaleString value.

(** The loop [for (let i = observations.length - 1; i >= 0; i--)]:
    [getLatestValueFrom obs n] runs it from [i = n - 1]. *)
Fixpoint getLatestValueFrom (observations : list FREDObservation) (n : nat)
    : option number :=
  match n with
  | O => None
  | S i =>
      match nth_error observations i with
      | Some obs =>
          if isValid obs then Some (parseFloat (value obs))
          else getLatestValueFrom observations i
      | None => getLatestValueFrom observations i
      end
  end.

Definition getLatestValue (observations : list FREDObservation) : option number :=
  getLatestValueFrom observations (List.length observations).

Definition windowMs : Z := 45 * 24 * 60 * 60 * 1000.

(** [Math.abs(obsDate.getTime() - targetDate.getTime()) < 45 days];
    false as soon as one of the two dates is invalid. *)
Definition nearTarget (obsDate targetDate : option Z) : bool :=
  match obsDate, targetDate with
  | Some o, Some t => Z.abs (o - t) <? windowMs
  | _, _ => false
  end.

(** The loop [for (const obs of observations)] with its [break]. *)
Fixpoint findYearAgo (targetDate : option Z) (observations : list FREDObservation)
    : option number :=
  match observations with
  | [] => None
  | obs :: rest =>
      if isValid obs then
        if nearTarget (JsDate.parse (zone host) (date obs)) targetDate
        then Some (parseFloat (value obs))
        else findYearAgo targetDate rest
      else findYearAgo targetDate rest
  end.

(** [targetDate = new Date(); targetDate.setFullYear(targetDate.getFullYear() - 1)] *)
Definition yearAgoTarget : option Z :=
  JsDate.setFullYear (zone host) (now host)
    (JsDate.getFullYear (zone host) (now host) - 1).

Definition getYearOverYearChange (observations : list FREDObservation) : string :=
  match getLatestValue observations with
  | Some latest =>
      if negb (truthy latest) then "+0.0%"
      else
        match findYearAgo yearAgoTarget observations with
        | Some yearAgoValue =>
            if negb (truthy yearAgoValue) then "+0.0%"
            else calculatePercentageChange yearAgoValue latest
        | None => "+0.0%"
        end
  | None => "+0.0%"
  end.

Definition getMonthOverMonthChange (observations : list FREDObservation) : string :=
  let validObs := filter isValid observations in
  if (List.length validObs <? 2)%nat then "+0.0%"
  else
    match nth_error validObs (List.length validObs - 1),
          nth_error validObs (List.length validObs - 2) with
    | Some l, Some p =>
        let latest := parseFloat (value l) in
        let previous := parseFloat (value p) in
        calculatePercentageChange previous latest
    | _, _ => "+0.0%"
    end.

Definition getChangeType (change metricId : string) : ChangeType.t :=
  let value := parseFloat change in
  if strictEq value zero then ChangeType.neutral
  else if String.eqb metricId "unemployment" then
    (if lt value zero then ChangeType.positive else ChangeType.negative)
  else if String.eqb metricId "inventory" then
    (if gt value zero then ChangeType.positive else ChangeType.negative)
  else
    (if gt value zero then ChangeType.positive else ChangeType.negative).

(** *** fetchFREDSeries *)

Definition configurationError : JsError :=
  {| message := "FRED_API_KEY environment variable is not set" |}.

Definition upstreamError (r : Response) : JsError :=
  {| message := "FRED API error: " ++ Text.intString (status r) ++ " " ++ statusText r |}.

(** [new Date(t).toISOString()] throws a RangeError on an invalid date. *)
Definition toISODate (t : option Z) : Completion string :=
  match t with
  | Some t => Normal (JsDate.isoDatePart t)
  | None => Throw {| message := "Invalid time value" |}
  end.

(** The query parameters; the date range is there only for a limit that
    is given and not zero. *)
Definition buildParams (seriesId apiKey : string) (limit : option Z)
    : Completion (list (string * string)) :=
  let params :=
    [("series_id", seriesId); ("api_key", apiKey); ("file_type", "json");
     ("sort_order", "asc"); ("units", "lin")] in
  match limit with
  | Some n =>
      if n =? 0 then Normal params
      else
        let endDate := now host in
        let startDate :=
          JsDate.setMonth (zone host) (now host)
            (JsDate.getMonth (zone host) (now host) - n) in
        match toISODate startDate with
        | Normal observation_start =>
            Normal (params ++ [("observation_start", observation_start);
                               ("observation_end", JsDate.isoDatePart endDate)])%list
        | Throw e => Throw e
        end
  | None => Normal params
  end.

(** [await fetch(url, ...)]: the call is issued, then it settles. *)
Definition awaitFetch (r : Request) : M Response :=
  (issue r ;;;
   match fetch host r with
   | Resolves resp => ret resp
   | Rejects e => throw e
   end)%effect.

(** [await response.json()] *)
Definition awaitJson (r : Response) : M FREDResponse :=
  match json r with
  | BodyJson data => ret data
  | BodyFails e => throw e
  end.

Definition fetchFREDSeries (seriesId : string) (limit : option Z) : M FREDResponse :=
  match FRED_API_KEY host with
  | None | Some EmptyString => throw configurationError
  | Some apiKey =>
      (params <- lift (buildParams seriesId apiKey limit) ;;
       let url := {| endpoint := FRED_BASE_URL; query := params |} in
       tryCatch
         (response <- awaitFetch url ;;
          if negb (ok response) then throw (upstreamError response)
          else awaitJson response)
         (fun error =>
            consoleError ("Error fetching FRED series " ++ seriesId ++ ": "
                          ++ message error) ;;;
            throw error))%effect
  end.

(** *** fetchAllHousingData *)

(** [data.status === 'fulfilled' ? data.value.observations : []], and the
    TypeError raised by the first use of an [observations] that is not
    there. *)
Definition observationsOf (data : Settled FREDResponse)
    : Completion (list FREDObservation) :=
  match data with
  | Fulfilled v =>
      match observations v with
      | Some obs => Normal obs
      | None =>
          Throw {| message := "Cannot read properties of undefined (reading 'length')" |}
      end
  | Rejected _ => Normal []
  end.

(** [latest ? format(latest) : 'N/A'] *)
Definition display (latest : option number) (format : number -> string) : string :=
  match latest with
  | Some v => if truthy v then format v else "N/A"
  | None => "N/A"
  end.

Definition buildMetrics
    (hpiObs inventoryObs permitsObs rentObs unemploymentObs : list FREDObservation)
    : list HousingMetric :=
  let hpiLatest := getLatestValue hpiObs in
  let hpiChange := getYearOverYearChange hpiObs in
  let inventoryLatest := getLatestValue inventoryObs in
  let inventoryChange := getMonthOverMonthChange inventoryObs in
  let permitsLatest := getLatestValue permitsObs in
  let permitsChange := getMonthOverMonthChange permitsObs in
  let rentLatest := getLatestValue rentObs in
  let rentChange := getYearOverYearChange rentObs in
  let unemploymentLatest := getLatestValue unemploymentObs in
  let unemploymentChange := getMonthOverMonthChange unemploymentObs in
  [ {| id := "hpi";
       title := "House Price Index";
       metric_value := display hpiLatest (fun v => toFixed v 1);
       change := hpiChange;
       changeType := getChangeType hpiChange "hpi";
       description := "Year-over-year change" |};
    {| id := "inventory";
       title := "Active Listings";
       metric_value := display inventoryLatest (fun v => formatNumber (round v));
       change := inventoryChange;
       changeType := getChangeType inventoryChange "inventory";
       description := "Month-over-month change" |};
    {| id := "rent";
       title := "Rental CPI";
       metric_value := display rentLatest (fun v => toFixed v 1);
       change := rentChange;
       changeType := getChangeType rentChange "rent";
       description := "Year-over-year change" |};
    {| id := "permits";
       title := "Building Permits";
       metric_value := display permitsLatest (fun v => formatNumber (round v));
       change := permitsChange;
       changeType := getChangeType permitsChange "permits";
       description := "Monthly permits issued" |};
    {| id := "unemployment";
       title := "Unemployment Rate";
       metric_value := display unemploymentLatest (fun v => toFixed v 1 ++ "%");
       change := unemploymentChange;
       changeType := getChangeType unemploymentChange "unemployment";
       description := "Month-over-month change" |} ].

(** The body of the [try] once the five promises have settled. *)
Definition assemble
    (hpiData inventoryData permitsData rentData unemploymentData : Settled FREDResponse)
    : M HousingData :=
  (hpiObs <- lift (observationsOf hpiData) ;;
   inventoryObs <- lift (observationsOf inventoryData) ;;
   permitsObs <- lift (observationsOf permitsData) ;;
   rentObs <- lift (observationsOf rentData) ;;
   unemploymentObs <- lift (observationsOf unemploymentData) ;;
   ret {| metrics := buildMetrics hpiObs inventoryObs permitsObs rentObs unemploymentObs;
          housePriceIndex := transformFREDData hpiObs None;
          activeListings := transformFREDData inventoryObs None;
          buildingPermits := transformFREDData permitsObs None;
          rentCPI := transformFREDData rentObs None;
          unemploymentRate := transformFREDData unemploymentObs None |})%effect.

Definition emptyMetric (i t d : string) : HousingMetric :=
  {| id := i; title := t; metric_value := "N/A"; change := "+0.0%";
     changeType := ChangeType.neutral; description := d |}.

(** The literal returned by the [catch] clause. *)
Definition fallback : HousingData :=
  {| metrics :=
       [ emptyMetric "hpi" "House Price Index" "Year-over-year change";
         emptyMetric "inventory" "Active Listings" "Month-over-month change";
         emptyMetric "rent" "Rental CPI" "Year-over-year change";
         emptyMetric "permits" "Building Permits" "Monthly permits issued";
         emptyMetric "unemployment" "Unemployment Rate" "Month-over-month change" ];
     housePriceIndex := [];
     activeListings := [];
     buildingPermits := [];
     rentCPI := [];
     unemploymentRate := [] |}.

(** The five calls of [Promise.allSettled] share nothing but the log of
    the world; they are run to completion in the order they are made. *)
Definition fetchAllHousingData : M HousingData :=
  tryCatch
    (hpiData <- settle (fetchFREDSeries SERIES_IDS.housePriceIndex None) ;;
     inventoryData <- settle (fetchFREDSeries SERIES_IDS.activeListings None) ;;
     permitsData <- settle (fetchFREDSeries SERIES_IDS.buildingPermits None) ;;
     rentData <- settle (fetchFREDSeries SERIES_IDS.rentCPI None) ;;
     unemploymentData <- settle (fetchFREDSeries SERIES_IDS.unemploymentRate None) ;;
     assemble hpiData inventoryData permitsData rentData unemploymentData)%effect
    (fun error =>
       (consoleError ("Error fetching housing data: " ++ message error) ;;;
        ret fallback)%effect).

End WithHost.

End FredApi.

(** ** app/api/housing-data/route.ts *)

Module Route.

Import JsNumber Effect FredApi.

(** [haystack.includes(needle)] *)
Fixpoint includes (needle haystack : string) : bool :=
  match Text.startsWith needle haystack with
  | Some _ => true
  | None =>
      match haystack with
      | String _ rest => includes needle rest
      | EmptyString => false
      end
  end.

(** What [NextResponse.json] is given: the payload, or the error object
    with its optional [details] member. *)
Inductive RouteBody : Type :=
| Payload (data : HousingData)
| Failure (error : string) (details : option string).

Record HttpResponse : Type := {
  status : Z;
  headers : list (string * string);
  body : RouteBody
}.

(** [NextResponse.json(body, { status, headers })]; the status is 200 when
    it is not given. *)
Definition jsonResponse (b : RouteBody) (st : option Z) (hs : list (string * string))
    : HttpResponse :=
  {| status := match st with Some n => n | None => 200 end;
     headers := hs;
     body := b |}.

(** The handler imports ['@/lib/fred-api'] at each call; the function the
    module exports is a parameter, as in the test-suite, which replaces
    it. *)
Definition GET (fetchAllHousingData : M HousingData) : M HttpResponse :=
  tryCatch
    (data <- fetchAllHousingData ;;
     ret (jsonResponse (Payload data) None
            [("Cache-Control", "public, s-maxage=3600, stale-while-revalidate=7200")]))%effect
    (fun error =>
       (consoleError ("Error fetching housing data: " ++ message error) ;;;
        if includes "FRED_API_KEY" (message error)
        then ret (jsonResponse
                    (Failure "Failed to fetch housing data"
                             (Some "API key configuration error"))
                    (Some 500) [])
        else ret (jsonResponse (Failure "Failed to fetch housing data" None)
                               (Some 500) []))%effect).

(** *** generateDummyData

    [Math.random] is the sequence of its results, [random k] being the
    result of call number [k]. *)
Section Dummy.

Variable zone : JsDate.Zone.
Variable currentDate : Z.
Variable random : nat -> number.

(** One iteration of the loop of [generateTimeSeries], for the index [i]
    and the call number [k] of [Math.random]. *)
Definition dummyPoint (baseValue volatility : number) (i : Z) (k : nat)
    : ChartDataPoint :=
  let date := JsDate.setMonth zone currentDate (JsDate.getMonth zone currentDate - i) in
  let monthYear :=
    match date with
    | Some t =>
        nth (Z.to_nat (JsDate.getMonth zone t)) months "undefined"
        ++ " " ++ Text.intString (JsDate.getFullYear zone t)
    | None => "undefined NaN"
    end in
  let randomChange := mul (sub (random k) (ofDecimal false 5 (- 1))) volatility in
  let value :=
    mul baseValue
        (add (add (ofZ 1) randomChange) (mul (ofZ i) (ofDecimal false 2 (- 3)))) in
  {| point_date := monthYear;
     point_value := div (round (mul value (ofZ 100))) (ofZ 100) |}.

(** [for (let i = 23; i >= 0; i--)]: [n] iterations left, the first of
    them with index [n - 1] and call number [k]. *)
Fixpoint dummyLoop (baseValue volatility : number) (n : nat) (k : nat)
    : list ChartDataPoint :=
  match n with
  | O => []
  | S i => dummyPoint baseValue volatility (Z.of_nat i) k
           :: dummyLoop baseValue volatility i (S k)
  end.

(** [generateTimeSeries(baseValue, volatility)] when [first] calls of
    [Math.random] were made before; the default volatility is 0.1. *)
Definition generateTimeSeries (baseValue : number) (volatility : option number)
    (first : nat) : list ChartDataPoint :=
  dummyLoop baseValue
    (match volatility with Some v => v | None => ofDecimal false 1 (- 1) end)
    24 first.

Definition dummyMetric (i t v c : string) (ct : ChangeType.t) (d : string)
    : HousingMetric :=
  {| id := i; title := t; metric_value := v; change := c; changeType := ct;
     description := d |}.

Definition generateDummyData : HousingData :=
  let metrics :=
    [ dummyMetric "hpi" "House Price Index" "284.5" "+5.2%" ChangeType.positive
        "Year-over-year change";
      dummyMetric "inventory" "Active Listings" "12,847" "-8.1%" ChangeType.negative
        "Month-over-month change";
      dummyMetric "rent" "Rental CPI" "156.8" "+3.4%" ChangeType.positive
        "Year-over-year change";
      dummyMetric "permits" "Building Permits" "2,341" "+12.7%" ChangeType.positive
        "Monthly permits issued";
      dummyMetric "unemployment" "Unemployment Rate" "3.8%" "-0.3%" ChangeType.positive
        "Month-over-month change" ] in
  {| metrics := metrics;
     housePriceIndex :=
       generateTimeSeries (ofZ 280) (Some (ofDecimal false 8 (- 2))) 0;
     activeListings :=
       generateTimeSeries (ofZ 13000) (Some (ofDecimal false 15 (- 2))) 24;
     buildingPermits :=
       generateTimeSeries (ofZ 2200) (Some (ofDecimal false 25 (- 2))) 48;
     rentCPI :=
       generateTimeSeries (ofZ 155) (Some (ofDecimal false 5 (- 2))) 72;
     unemploymentRate :=
       generateTimeSeries (ofZ 4) (Some (ofDecimal false 2 (- 1))) 96 |}.

End Dummy.

End Route.

(** ** components/metric-card.tsx *)

Module MetricCard.

Import FredApi.

Inductive Icon : Type := TrendingUp | TrendingDown | Minus.

(** The element returned by [getIcon]: the icon and its [className]. *)
Definition getIcon (metric : HousingMetric) : Icon * string :=
  match changeType metric with
  | ChangeType.positive => (TrendingUp, "h-4 w-4 text-green-600")
  | ChangeType.negative => (TrendingDown, "h-4 w-4 text-red-600")
  | ChangeType.neutral => (Minus, "h-4 w-4 text-gray-600")
  end.

Definition getChangeColor (metric : HousingMetric) : string :=
  match changeType metric with
  | ChangeType.positive => "text-green-600"
  | ChangeType.negative => "text-red-600"
  | ChangeType.neutral => "text-gray-600"
  end.

End MetricCard.

(** ** app/page.tsx *)

Module Page.

Import FredApi.

(** A value caught by [catch (err)]: an [Error] with its message, or
    anything else. *)
Inductive Thrown : Type :=
| ThrownError (message : string)
| ThrownOther.

Inductive PageBody : Type :=
| JsonFails (err : Thrown)
| JsonValue (housingData : HousingData).

Record PageResponse : Type := {
  ok : bool;
  json : PageBody
}.

(** How [fetch("/api/housing-data")] settles. *)
Inductive PageFetch : Type :=
| FetchRejects (err : Thrown)
| FetchResolves (response : PageResponse).

(** The three [useState] cells of the component. *)
Record State : Type := {
  data : option HousingData;
  loading : bool;
  error : option string
}.

Definition initialState : State :=
  {| data := None; loading := true; error := None |}.

Definition setData (d : HousingData) (s : State) : State :=
  {| data := Some d; loading := loading s; error := error s |}.

Definition setLoading (b : bool) (s : State) : State :=
  {| data := data s; loading := b; error := error s |}.

Definition setError (e : option string) (s : State) : State :=
  {| data := data s; loading := loading s; error := e |}.

(** The state while the request is in flight: the first two statements of
    the [try] block. *)
Definition requesting (s : State) : State := setError None (setLoading true s).

(** The rest of the [try] block: the state it leaves, and the value it
    throws, if any. *)
Definition tryBody (outcome : PageFetch) (s : State) : State * option Thrown :=
  match outcome with
  | FetchRejects err => (s, Some err)
  | FetchResolves response =>
      if negb (ok response)
      then (s, Some (ThrownError "Failed to fetch housing data"))
      else match json response with
           | JsonFails err => (s, Some err)
           | JsonValue housingData => (setData housingData s, None)
           end
  end.

(** [fetchData], given how the request settles: [try], [catch], [finally]. *)
Definition fetchData (outcome : PageFetch) (s : State) : State :=
  let '(s1, thrown) := tryBody outcome (requesting s) in
  let s2 :=
    match thrown with
    | Some (ThrownError message) => setError (Some message) s1
    | Some ThrownOther => setError (Some "An error occurred") s1
    | None => s1
    end in
  setLoading false s2.

Inductive View : Type :=
| Spinner
| ErrorPanel (message : string)
| Nothing
| Dashboard (d : HousingData).

(** The chain [if (loading)], [if (error)], [if (!data)] of the component;
    an empty string is not an error for [if (error)]. *)
Definition render (s : State) : View :=
  if loading s then Spinner
  else
    match error s with
    | Some (String c m) => ErrorPanel (String c m)
    | _ =>
        match data s with
        | Some d => Dashboard d
        | None => Nothing
        end
    end.

End Page.

(** ** More notions used to state the properties *)

Module Outcome.

Import Effect FredApi.

(** The observations the aggregator works with after a series fetch: the
    empty list after a rejection, nothing when the body has no
    [observations]. *)
Definition seriesObservations (c : Completion FREDResponse)
    : option (list FREDObservation) :=
  match c with
  | Normal r => observations r
  | Throw _ => Some []
  end.

(** The five parameters every request carries. *)
Definition baseQuery (seriesId apiKey : string) : list (string * string) :=
  [("series_id", seriesId); ("api_key", apiKey); ("file_type", "json");
   ("sort_order", "asc"); ("units", "lin")].

Definition requestFor (seriesId apiKey : string) : Request :=
  {| endpoint := FRED_BASE_URL; query := baseQuery seriesId apiKey |}.

(** The console line written when a series fetch fails. *)
Definition seriesErrorLine (seriesId : string) (e : JsError) : string :=
  "Error fetching FRED series " ++ seriesId ++ ": " ++ message e.

(** The series in the order in which they are requested. *)
Definition seriesInCallOrder : list string :=
  [SERIES_IDS.housePriceIndex; SERIES_IDS.activeListings;
   SERIES_IDS.buildingPermits; SERIES_IDS.rentCPI; SERIES_IDS.unemploymentRate].

(** The payload assembled from the observations of the five series. *)
Definition assembled (host : Host)
    (hpiObs inventoryObs permitsObs rentObs unemploymentObs : list FREDObservation)
    : HousingData :=
  {| metrics := buildMetrics host hpiObs inventoryObs permitsObs rentObs unemploymentObs;
     housePriceIndex := transformFREDData host hpiObs None;
     activeListings := transformFREDData host inventoryObs None;
     buildingPermits := transformFREDData host permitsObs None;
     rentCPI := transformFREDData host rentObs None;
     unemploymentRate := transformFREDData host unemploymentObs None |}.

(** The console line written by the [catch] clause of the aggregator. *)
Definition assemblyErrorLine : string :=
  "Error fetching housing data: Cannot read properties of undefined (reading 'length')".

End Outcome.

(** ** Notions used to state the properties *)

Module Stated.

Import JsNumber Effect FredApi.

(** The value carried by an observation that was found, if any. *)
Definition valueOf (o : option FREDObservation) : option number :=
  match o with
  | Some obs => Some (parseFloat (value obs))
  | None => None
  end.

(** A series fetch that failed, or whose observations hold no value. *)
Definition noValidData (c : Completion FREDResponse) : Prop :=
  match c with
  | Throw _ => True
  | Normal r =>
      exists obs, observations r = Some obs
                  /\ forall o, In o obs -> value o = "." \/ value o = ""
  end.

(** The metric shown for a series without data. *)
Definition placeholder (m : HousingMetric) : Prop :=
  metric_value m = "N/A" /\ change m = "+0.0%"
  /\ changeType m = ChangeType.neutral.

(** The label read off the text of a date-only form: its own month and
    year, as the specification words it. *)
Definition writtenMonthYear (text : string) : string :=
  match JsDate.isoDateOnly text with
  | Some (y, m, _) => nth (Z.to_nat (m - 1)) months "undefined" ++ " " ++ Text.intString y
  | None => "undefined NaN"
  end.

(** UTC midnight of a calendar day, month counted from 1. *)
Definition utcMidnight (y m d : Z) : Z :=
  JsDate.MakeDate (JsDate.MakeDay y (m - 1) d) 0.



(** The shape the test-suite asks of a change: [/^[+-]\d+\.\d%$/]. *)
Definition signedOneDecimal (s : string) : bool :=
  match s with
  | String c r =>
      (Ascii.eqb c "+" || Ascii.eqb c "-")
      && let '(ds, r1) := Text.spanDigits r in
         negb (String.eqb ds "")
         && match r1 with
            | String "." (String d (String "%" EmptyString)) => Text.isDigit d
            | _ => false
            end
  | EmptyString => false
  end.

End Stated.

(** ** Hosts and data of the test-suite *)

Module Sample.

Import Effect FredApi.

(** A zone on UTC, and one six hours behind it (Central Standard Time).
    Both take every text that is not a legal date-only form for
    unreadable; they are used on date-only forms and on texts that no
    engine reads as a date. *)
Definition utc : JsDate.Zone :=
  {| JsDate.LocalTZA := fun _ _ => 0; JsDate.parseOther := fun _ => None |}.

Definition central : JsDate.Zone :=
  {| JsDate.LocalTZA := fun _ _ => - 21600000; JsDate.parseOther := fun _ => None |}.

Definition observation (d v : string) : FREDObservation := {| date := d; value := v |}.

Definition respond (obs : list FREDObservation) : FetchOutcome :=
  Resolves {| ok := true; status := 200; statusText := "OK";
              json := BodyJson {| observations := Some obs |} |}.

Definition seriesOf (r : Request) : string :=
  match query r with
  | (_, s) :: _ => s
  | [] => ""
  end.

Definition mockHPI : list FREDObservation :=
  [observation "2023-01-01" "280.0"; observation "2024-01-01" "284.5"].

Definition mockInventory : list FREDObservation :=
  [observation "2024-01-01" "13000"; observation "2024-02-01" "12847"].

Definition mockUnemployment : list FREDObservation :=
  [observation "2024-01-01" "4.1"; observation "2024-02-01" "3.8"].

Definition withMissing : list FREDObservation :=
  [observation "2023-01-01" "100.5"; observation "2023-02-01" "101.2";
   observation "2023-03-01" "."; observation "2023-04-01" "102.0"].

(** The house price index answers, the inventory call meets a network
    error, the other series are empty. *)
Definition partialNetwork (r : Request) : FetchOutcome :=
  if String.eqb (seriesOf r) SERIES_IDS.housePriceIndex then respond mockHPI
  else if String.eqb (seriesOf r) SERIES_IDS.activeListings
       then Rejects {| message := "API Error" |}
       else respond [].

Definition mockPermits : list FREDObservation :=
  [observation "2024-01-01" "2200"; observation "2024-02-01" "2341"].

Definition mockRent : list FREDObservation :=
  [observation "2023-01-01" "150.0"; observation "2024-01-01" "156.8"].

(** Every series answers. *)
Definition fullNetwork (r : Request) : FetchOutcome :=
  if String.eqb (seriesOf r) SERIES_IDS.housePriceIndex then respond mockHPI
  else if String.eqb (seriesOf r) SERIES_IDS.activeListings then respond mockInventory
  else if String.eqb (seriesOf r) SERIES_IDS.buildingPermits then respond mockPermits
  else if String.eqb (seriesOf r) SERIES_IDS.rentCPI then respond mockRent
  else respond mockUnemployment.

(** Thirty-six months of ascending data from January 2021. *)
Definition threeYears : list FREDObservation :=
  map (fun i => observation
                  (JsDate.isoDatePart (JsDate.MakeDate (JsDate.MakeDay 2021 (Z.of_nat i) 1) 0))
                  (Text.natString (100 + Z.of_nat i)))
      (seq 0 36).

(** 2024-01-15T12:00:00Z and 2026-11-01T12:00:00Z *)
Definition january2024 : Z := 1705320000000.

Definition hostAt (z : JsDate.Zone) (t : Z) : Host :=
  {| zone := z; now := t; FRED_API_KEY := Some "test-api-key";
     fetch := partialNetwork |}.

Definition served (t : Z) : Host :=
  {| zone := utc; now := t; FRED_API_KEY := Some "test-api-key";
     fetch := fullNetwork |}.

Definition withoutKey : Host :=
  {| zone := utc; now := january2024; FRED_API_KEY := None;
     fetch := partialNetwork |}.

Definition emptyWorld : World := {| requests := []; console := [] |}.

End Sample.

(** ** More hosts of the test-suite *)

Module Scenario.

Import Effect FredApi.

(** Every request is answered "400 Bad Request". *)
Definition refusing : Host :=
  {| zone := Sample.utc; now := Sample.january2024;
     FRED_API_KEY := Some "test-api-key";
     fetch := fun _ => Resolves {| ok := false; status := 400;
                                   statusText := "Bad Request";
                                   json := BodyJson {| observations := None |} |} |}.

(** Every request is answered with a body that is not JSON. *)
Definition garbled : Host :=
  {| zone := Sample.utc; now := Sample.january2024;
     FRED_API_KEY := Some "test-api-key";
     fetch := fun _ => Resolves {| ok := true; status := 200; statusText := "OK";
                                   json := BodyFails {| message := "Unexpected token <" |} |} |}.

(** The rent series is answered with a JSON body without observations,
    the others as in the test-suite. *)
Definition malformed : Host :=
  {| zone := Sample.utc; now := Sample.january2024;
     FRED_API_KEY := Some "test-api-key";
     fetch := fun r =>
       if String.eqb (Sample.seriesOf r) SERIES_IDS.rentCPI
       then Resolves {| ok := true; status := 200; statusText := "OK";
                        json := BodyJson {| observations := None |} |}
       else Sample.fullNetwork r |}.

Definition emptyKey : Host :=
  {| zone := Sample.utc; now := Sample.january2024; FRED_API_KEY := Some "";
     fetch := Sample.fullNetwork |}.

(** The series of the test-suite with gaps between and after the values. *)
Definition withGaps : list FREDObservation :=
  [Sample.observation "2023-11-01" "13000"; Sample.observation "2023-12-01" ".";
   Sample.observation "2024-01-01" "12847"; Sample.observation "2024-02-01" ""].

(** The page holding the payload of an earlier request. *)
Definition showing (d : HousingData) : Page.State :=
  {| Page.data := Some d; Page.loading := false; Page.error := None |}.

End Scenario.

(** * Properties *)

Import JsNumber Effect FredApi Stated.

(** Linear arithmetic with division and remainder by constants. *)
Ltac lia_div := Z.div_mod_to_equations; lia.

(** ** The Observation Transformer on lists *)

Section Transformer.

Variable host : Host.

Lemma isValid_false_iff (o : FREDObservation) :
  isValid o = false <-> value o = "." \/ value o = "".
Proof.
  unfold isValid.
  destruct (String.eqb_spec (value o) "."), (String.eqb_spec (value o) "");
    simpl; split; intros; auto; try discriminate; tauto.
Qed.

Lemma isValid_true_iff (o : FREDObservation) :
  isValid o = true <-> value o <> "." /\ value o <> "".
Proof.
  unfold isValid.
  destruct (String.eqb_spec (value o) "."), (String.eqb_spec (value o) "");
    simpl; split; intros; auto; try discriminate; tauto.
Qed.

Lemma filter_all_missing (l : list FREDObservation) :
  (forall o, In o l -> value o = "." \/ value o = "") -> filter isValid l = [].
Proof.
  induction l as [|o l IH]; intros H; simpl; [reflexivity|].
  assert (E : isValid o = false) by (apply isValid_false_iff, H; left; reflexivity).
  rewrite E. apply IH. intros o' Ho'. apply H. right. exact Ho'.
Qed.

Lemma slice_nil {A : Type} (k : Z) : slice k (@nil A) = [].
Proof. unfold slice. apply skipn_nil. Qed.

Lemma slice_last {A : Type} (n : Z) (l : list A) :
  0 < n -> slice (- n) l = skipn (List.length l - Z.to_nat n) l.
Proof.
  intros Hn. unfold slice.
  replace (- n <? 0) with true by (symmetry; apply Z.ltb_lt; lia).
  f_equal. lia.
Qed.

(** C8. Without a limit, transformFREDData drops an observation exactly
    when its value is the missing-marker "." or the empty string, and
    keeps every other one as its chart point, in the order of the input;
    a list of missing values only gives the empty sequence, whatever the
    limit. *)
Theorem transformFREDData_drops_missing :
  transformFREDData host [] None = []
  /\ (forall o l, value o = "." \/ value o = "" ->
        transformFREDData host (o :: l) None = transformFREDData host l None)
  /\ (forall o l, value o <> "." -> value o <> "" ->
        transformFREDData host (o :: l) None
        = toPoint host o :: transformFREDData host l None)
  /\ (forall l limit, (forall o, In o l -> value o = "." \/ value o = "") ->
        transformFREDData host l limit = []).
Proof.
  repeat split.
  - intros o l H. apply isValid_false_iff in H.
    unfold transformFREDData. simpl. rewrite H. reflexivity.
  - intros o l H1 H2.
    assert (E : isValid o = true) by (apply isValid_true_iff; split; assumption).
    unfold transformFREDData. simpl. rewrite E. reflexivity.
  - intros l limit H. unfold transformFREDData.
    rewrite (filter_all_missing l H).
    destruct limit as [n|]; [|reflexivity].
    destruct (n =? 0); [reflexivity|]. rewrite slice_nil. reflexivity.
Qed.

(** C7. With a positive limit n, transformFREDData returns the last n of
    the valid points, in their original order: the full sequence of valid
    points is some older points followed by the result, and the result
    has n points, or all of them when fewer than n exist. Without a limit
    it returns the points of all valid observations. *)
Theorem transformFREDData_last_n (obs : list FREDObservation) (n : Z) :
  0 < n ->
  let all := transformFREDData host obs None in
  let res := transformFREDData host obs (Some n) in
  all = map (toPoint host) (filter isValid obs)
  /\ res = skipn (List.length all - Z.to_nat n) all
  /\ List.length res = Nat.min (Z.to_nat n) (List.length all)
  /\ exists older, all = (older ++ res)%list.
Proof.
  intros Hn all res.
  assert (E : res = skipn (List.length all - Z.to_nat n) all).
  { unfold res, all, transformFREDData.
    replace (n =? 0) with false by (symmetry; apply Z.eqb_neq; lia).
    rewrite slice_last by exact Hn.
    rewrite length_map. symmetry. apply skipn_map. }
  split; [reflexivity|]. split; [exact E|]. split.
  - rewrite E, length_skipn. lia.
  - exists (firstn (List.length all - Z.to_nat n) all).
    rewrite E. symmetry. apply firstn_skipn.
Qed.

(** C10. A limit of exactly 0 is not a limit: the guard [limit ? ... : ...]
    takes the branch of the omitted argument. The call with limit 0
    returns what the call without limit returns, namely the point of
    every valid observation, in order: each valid observation of the
    input has its point in the result, which is therefore not empty as
    soon as one observation is valid. *)
Theorem transformFREDData_limit_zero (obs : list FREDObservation) :
  transformFREDData host obs (Some 0) = transformFREDData host obs None
  /\ transformFREDData host obs (Some 0) = map (toPoint host) (filter isValid obs)
  /\ (forall o, In o obs -> isValid o = true ->
        In (toPoint host o) (transformFREDData host obs (Some 0)))
  /\ List.length (transformFREDData host obs (Some 0))
     = List.length (filter isValid obs).
Proof.
  split; [reflexivity|]. split; [reflexivity|]. split.
  - intros o I V. unfold transformFREDData. cbn [Z.eqb]. apply in_map.
    apply filter_In. split; assumption.
  - unfold transformFREDData. cbn [Z.eqb]. apply length_map.
Qed.

End Transformer.

(** ** Change polarity *)

Section Polarity.

Lemma lt_zero_cases (v : number) :
  lt v zero = true -> strictEq v zero = false /\ gt v zero = false.
Proof.
  destruct v as [s|s| |s m e]; simpl; intros H; try discriminate;
    destruct s; try discriminate; split; reflexivity.
Qed.

Lemma gt_zero_cases (v : number) :
  gt v zero = true -> strictEq v zero = false /\ lt v zero = false.
Proof.
  destruct v as [s|s| |s m e]; simpl; intros H; try discriminate;
    destruct s; try discriminate; split; reflexivity.
Qed.

(** C6. With v the number read from the change string: for the
    identifier 'unemployment' a negative v is classified positive and a
    positive v negative; for every other identifier, 'inventory'
    included, a positive v is positive and a negative v negative; a v
    equal to zero is neutral for every identifier. *)
Theorem getChangeType_polarity (change metricId : string) :
  let v := parseFloat change in
  (strictEq v zero = true -> getChangeType change metricId = ChangeType.neutral)
  /\ (lt v zero = true ->
        getChangeType change metricId
        = if String.eqb metricId "unemployment"
          then ChangeType.positive else ChangeType.negative)
  /\ (gt v zero = true ->
        getChangeType change metricId
        = if String.eqb metricId "unemployment"
          then ChangeType.negative else ChangeType.positive).
Proof.
  intros v. unfold getChangeType. fold v. repeat split.
  - intros H. rewrite H. reflexivity.
  - intros H. destruct (lt_zero_cases v H) as [E G]. rewrite E, H, G.
    destruct (String.eqb metricId "unemployment"); [reflexivity|].
    destruct (String.eqb metricId "inventory"); reflexivity.
  - intros H. destruct (gt_zero_cases v H) as [E L]. rewrite E, H, L.
    destruct (String.eqb metricId "unemployment"); [reflexivity|].
    destruct (String.eqb metricId "inventory"); reflexivity.
Qed.

End Polarity.

(** ** Decimal text of integers *)

Section DecimalText.

Import Text.

Lemma append_assoc (a b c : string) : (a ++ b) ++ c = a ++ (b ++ c).
Proof. induction a as [|x a IH]; simpl; [reflexivity|]. rewrite IH. reflexivity. Qed.

Lemma length_append (a b : string) :
  String.length (a ++ b) = (String.length a + String.length b)%nat.
Proof. induction a as [|x a IH]; simpl; [reflexivity|]. rewrite IH. reflexivity. Qed.

Lemma posDigits_acc (fuel : nat) :
  forall n acc, posDigits fuel n acc = posDigits fuel n "" ++ acc.
Proof.
  induction fuel as [|k IH]; intros n acc; simpl; [reflexivity|].
  destruct (n <? 10); [reflexivity|].
  rewrite IH, (IH _ (String _ "")), append_assoc. reflexivity.
Qed.

Lemma posDigits_fuel (f1 : nat) :
  forall f2 n, 0 <= n < 2 ^ Z.of_nat f1 -> n < 2 ^ Z.of_nat f2 ->
               (1 <= f1)%nat -> (1 <= f2)%nat ->
               posDigits f1 n "" = posDigits f2 n "".
Proof.
  induction f1 as [|k IH]; intros f2 n H1 H2 L1 L2; [lia|].
  destruct f2 as [|k2]; [lia|]. simpl.
  destruct (Z.ltb_spec n 10) as [Hn|Hn]; [reflexivity|].
  rewrite posDigits_acc, (posDigits_acc k2). f_equal.
  rewrite Nat2Z.inj_succ, Z.pow_succ_r in H1, H2 by lia.
  assert (Hq : 0 <= n / 10 < n / 2 + 1) by lia_div.
  assert (Hk : forall j, n < 2 * 2 ^ Z.of_nat j -> (1 <= j)%nat /\ n / 10 < 2 ^ Z.of_nat j).
  { intros j Hj. split.
    - destruct j; [simpl in Hj; lia|lia].
    - assert (n / 2 < 2 ^ Z.of_nat j) by (apply Z.div_lt_upper_bound; lia). lia_div. }
  destruct (Hk k) as [? ?]; [lia|]. destruct (Hk k2) as [? ?]; [lia|].
  apply IH; lia.
Qed.

Lemma natString_digit (n : Z) :
  0 <= n < 10 -> natString n = String (digitChar n) "".
Proof.
  intros H. unfold natString. simpl.
  replace (n <? 10) with true by (symmetry; apply Z.ltb_lt; lia).
  rewrite Z.mod_small by lia. reflexivity.
Qed.

Lemma natString_step (n : Z) :
  10 <= n ->
  natString n = natString (n / 10) ++ String (digitChar (n mod 10)) "".
Proof.
  intros H. unfold natString at 1. simpl.
  replace (n <? 10) with false by (symmetry; apply Z.ltb_ge; lia).
  rewrite posDigits_acc. f_equal.
  assert (L : 0 < n) by lia.
  pose proof (Z.log2_spec n L) as [Hlo Hhi].
  pose proof (Z.log2_nonneg n) as Hnn.
  assert (Hq : 0 <= n / 10) by (apply Z.div_pos; lia).
  assert (H3 : 1 <= Z.log2 n).
  { destruct (Z.eq_dec (Z.log2 n) 0) as [E|E]; [|lia].
    rewrite E in Hhi. simpl in Hhi. lia. }
  unfold natString. apply posDigits_fuel.
  - rewrite Z2Nat.id by lia. split; [exact Hq|].
    rewrite Z.pow_succ_r in Hhi by lia.
    assert (n / 2 < 2 ^ Z.log2 n) by (apply Z.div_lt_upper_bound; lia). lia_div.
  - rewrite Nat2Z.inj_succ, Z2Nat.id by apply Z.log2_nonneg.
    destruct (Z.eq_dec (n / 10) 0) as [E|E].
    + rewrite E. simpl. lia.
    + apply Z.log2_spec. lia.
  - lia.
  - lia.
Qed.

Lemma natString_nonempty (n : Z) : 0 <= n -> (1 <= String.length (natString n))%nat.
Proof.
  intros H. destruct (Z.lt_ge_cases n 10) as [L|L].
  - rewrite natString_digit by lia. simpl. lia.
  - rewrite natString_step by lia. rewrite length_append. simpl. lia.
Qed.

Lemma padLeft_two (n : Z) :
  0 <= n ->
  padLeft 2 "0" (natString n)
  = natString (n / 10) ++ String (digitChar (n mod 10)) "".
Proof.
  intros H. unfold padLeft. destruct (Z.lt_ge_cases n 10) as [L|L].
  - rewrite natString_digit by lia. simpl.
    rewrite Z.div_small, Z.mod_small by lia. reflexivity.
  - rewrite natString_step by lia.
    assert (Hq : 0 <= n / 10) by (apply Z.div_pos; lia).
    pose proof (natString_nonempty (n / 10) Hq) as Hl.
    rewrite length_append. simpl String.length.
    replace (2 - _)%nat with 0%nat by lia. reflexivity.
Qed.

Lemma substring_append_left (a b : string) :
  substring 0 (String.length a) (a ++ b) = a.
Proof.
  induction a as [|c a IH]; simpl.
  - destruct b; reflexivity.
  - rewrite IH. reflexivity.
Qed.

Lemma substring_append_right (a b : string) :
  substring (String.length a) (String.length b) (a ++ b) = b.
Proof.
  induction a as [|c a IH]; simpl.
  - induction b as [|c b IHb]; simpl; [reflexivity|]. rewrite IHb. reflexivity.
  - exact IH.
Qed.

End DecimalText.

(** ** Percentage change *)

Section PercentageChange.

Lemma scaledHalfUp_nonneg (m : positive) (e : Z) (f : nat) : 0 <= scaledHalfUp m e f.
Proof.
  unfold scaledHalfUp.
  assert (H10 : 0 < 10 ^ Z.of_nat f) by (apply Z.pow_pos_nonneg; lia).
  destruct (Z.leb_spec 0 e) as [He|He].
  - assert (0 < 2 ^ e) by (apply Z.pow_pos_nonneg; lia). nia.
  - assert (0 < 2 ^ (- e)) by (apply Z.pow_pos_nonneg; lia).
    assert (0 < 2 ^ (1 - e)) by (apply Z.pow_pos_nonneg; lia).
    apply Z.div_pos; nia.
Qed.

(** The integer printed by [toFixed(1)] is the nearest number of tenths,
    the upper one on a tie: for [e < 0], [n - 1/2 <= 10 * m * 2^e < n + 1/2]
    after clearing denominators. *)
Lemma scaledHalfUp_nearest (m : positive) (e : Z) :
  let n := scaledHalfUp m e 1 in
  if 0 <=? e then n = 10 * Zpos m * 2 ^ e
  else 20 * Zpos m - 2 ^ (- e) < n * 2 ^ (1 - e) <= 20 * Zpos m + 2 ^ (- e).
Proof.
  unfold scaledHalfUp. change (10 ^ Z.of_nat 1) with 10.
  destruct (Z.leb_spec 0 e) as [He|He]; [lia|].
  assert (P : 0 < 2 ^ (- e)) by (apply Z.pow_pos_nonneg; lia).
  replace (1 - e) with (Z.succ (- e)) by lia.
  rewrite Z.pow_succ_r by lia.
  set (d := 2 ^ (- e)) in *.
  pose proof (Z.div_mod (2 * (Zpos m * 10) + d) (2 * d) ltac:(lia)) as E.
  pose proof (Z.mod_pos_bound (2 * (Zpos m * 10) + d) (2 * d) ltac:(lia)) as B.
  nia.
Qed.

Lemma toFixed_one_finite (s : bool) (m : positive) (e : Z) :
  floorMag m e < 10 ^ 21 ->
  toFixed (S754_finite s m e) 1
  = (if s then "-" else "") ++ Text.tenths (scaledHalfUp m e 1).
Proof.
  intros H. unfold toFixed, toFixedMagnitude. f_equal.
  replace (10 ^ 21 <=? floorMag m e) with false by (symmetry; apply Z.leb_gt; exact H).
  pose proof (scaledHalfUp_nonneg m e 1) as Hn.
  rewrite padLeft_two by exact Hn.
  set (a := Text.natString (scaledHalfUp m e 1 / 10)).
  set (c := String (Text.digitChar (scaledHalfUp m e 1 mod 10)) "").
  rewrite length_append.
  replace (String.length a + String.length c - 1)%nat with (String.length a)
    by (subst c; simpl; lia).
  rewrite substring_append_left.
  change 1%nat with (String.length c) at 1.
  rewrite substring_append_right.
  unfold Text.tenths. fold a. rewrite natString_digit; [reflexivity|].
  apply Z.mod_pos_bound. lia.
Qed.

(** C4 (amended). A prior value equal to zero gives exactly "+0.0%".
    Otherwise, with c the binary64 result of ((new - old) / old) * 100:
    when c is zero the result is "+0.0%"; when c is finite, not zero and
    below 10^21 in magnitude, the result is the sign ("+" for a positive
    c, "-" for a negative c), then the nearest number n of tenths of |c|
    printed as its integer part, a point and one digit, then "%". *)
Theorem calculatePercentageChange_one_decimal (oldValue newValue : number) :
  let c := mul (div (sub newValue oldValue) oldValue) (ofZ 100) in
  (strictEq oldValue zero = true ->
     calculatePercentageChange oldValue newValue = "+0.0%")
  /\ (strictEq oldValue zero = false ->
      forall s, c = S754_zero s ->
        calculatePercentageChange oldValue newValue = "+0.0%")
  /\ (strictEq oldValue zero = false ->
      forall s m e, c = S754_finite s m e -> floorMag m e < 10 ^ 21 ->
        calculatePercentageChange oldValue newValue
        = (if s then "-" else "+") ++ Text.tenths (scaledHalfUp m e 1) ++ "%").
Proof.
  intros c. unfold calculatePercentageChange. fold c. repeat split.
  - intros H. rewrite H. reflexivity.
  - intros H s E. rewrite H, E. reflexivity.
  - intros H s m e E L. rewrite H, E.
    rewrite toFixed_one_finite by exact L. destruct s; reflexivity.
Qed.

End PercentageChange.

(** ** The shape of a formatted change *)

Section ChangeShape.

Import Text.

Lemma digitChar_isDigit (d : Z) : 0 <= d <= 9 -> isDigit (digitChar d) = true.
Proof.
  intros H.
  assert (C : d = 0 \/ d = 1 \/ d = 2 \/ d = 3 \/ d = 4 \/ d = 5 \/ d = 6
              \/ d = 7 \/ d = 8 \/ d = 9) by lia.
  repeat (destruct C as [->|C]; [reflexivity|]). subst d. reflexivity.
Qed.

Lemma allDigits_append (a b : string) :
  allDigits (a ++ b) = allDigits a && allDigits b.
Proof.
  induction a as [|c a IH]; [reflexivity|].
  cbn [append allDigits]. rewrite IH, andb_assoc. reflexivity.
Qed.

Lemma natString_allDigits (n : Z) : 0 <= n -> allDigits (natString n) = true.
Proof.
  intros H. revert n H. apply (Zlt_0_ind (fun n => allDigits (natString n) = true)).
  intros n IH Hn. destruct (Z.lt_ge_cases n 10) as [L|L].
  - rewrite natString_digit by lia. cbn [allDigits].
    rewrite digitChar_isDigit by lia. reflexivity.
  - rewrite natString_step by lia. rewrite allDigits_append.
    rewrite IH by lia_div. cbn [allDigits].
    rewrite digitChar_isDigit; [reflexivity|]. lia_div.
Qed.

Lemma spanDigits_stop (a : string) (c : ascii) (b : string) :
  allDigits a = true -> isDigit c = false ->
  spanDigits (a ++ String c b) = (a, String c b).
Proof.
  intros A C. induction a as [|x a IH].
  - cbn [append spanDigits]. rewrite C. reflexivity.
  - cbn [allDigits] in A. apply andb_prop in A as [X A].
    cbn [append spanDigits]. rewrite X, (IH A). reflexivity.
Qed.

Lemma signedOneDecimal_tenths (neg : bool) (n : Z) :
  0 <= n ->
  signedOneDecimal ((if neg then "-" else "+") ++ tenths n ++ "%") = true.
Proof.
  intros H. unfold tenths.
  assert (Q : 0 <= n / 10) by lia_div.
  assert (R : 0 <= n mod 10 <= 9) by lia_div.
  rewrite (natString_digit (n mod 10)) by lia.
  rewrite append_assoc.
  pose proof (natString_allDigits (n / 10) Q) as A.
  pose proof (natString_nonempty (n / 10) Q) as N.
  assert (S : forall c, signedOneDecimal
                (String c (natString (n / 10)
                           ++ String "." (String (digitChar (n mod 10)) "%")))
              = (Ascii.eqb c "+" || Ascii.eqb c "-")).
  { intros c. cbn [signedOneDecimal].
    rewrite spanDigits_stop by (exact A || reflexivity).
    rewrite digitChar_isDigit by lia.
    destruct (natString (n / 10)); [simpl in N; lia|].
    cbn [String.eqb negb andb]. rewrite !andb_true_r. reflexivity. }
  destruct neg; cbn [append]; rewrite S; reflexivity.
Qed.

(** X22. Whenever the change is zero, or finite and below 10^21 in
    magnitude, or the prior value is zero, the text returned has the shape
    [/^[+-]\d+\.\d%$/] that the test-suite asks of a change. *)
Lemma calculatePercentageChange_shape (oldValue newValue : number) :
  match mul (div (sub newValue oldValue) oldValue) (ofZ 100) with
  | S754_zero _ => True
  | S754_finite _ m e => floorMag m e < 10 ^ 21
  | _ => strictEq oldValue zero = true
  end ->
  signedOneDecimal (calculatePercentageChange oldValue newValue) = true.
Proof.
  intros H. unfold calculatePercentageChange.
  destruct (strictEq oldValue zero) eqn:E; [reflexivity|].
  destruct (mul (div (sub newValue oldValue) oldValue) (ofZ 100))
    as [s|s| |s m e] eqn:C; try discriminate.
  - reflexivity.
  - rewrite toFixed_one_finite by exact H.
    replace ((if ge (S754_finite s m e) zero then "+" else "")
             ++ ((if s then "-" else "") ++ tenths (scaledHalfUp m e 1)) ++ "%")
      with ((if s then "-" else "+") ++ tenths (scaledHalfUp m e 1) ++ "%")
      by (destruct s; reflexivity).
    apply signedOneDecimal_tenths, scaledHalfUp_nonneg.
Qed.

End ChangeShape.

(** ** The Series Fetcher *)

Section Fetcher.

Variable host : Host.

Lemma upstreamError_not_configuration (r : Response) :
  message (upstreamError r) <> message configurationError.
Proof. unfold upstreamError, configurationError. cbn [message append]. discriminate. Qed.

Lemma fetchFREDSeries_without_key (seriesId : string) (limit : option Z) (w : World) :
  FRED_API_KEY host = None \/ FRED_API_KEY host = Some "" ->
  fetchFREDSeries host seriesId limit w = (Throw configurationError, w).
Proof.
  intros [H|H]; unfold fetchFREDSeries; rewrite H; reflexivity.
Qed.

(** With a credential, the call either stops on the date range of the
    query before anything is sent, or sends exactly one request. *)
Lemma fetchFREDSeries_with_key (seriesId : string) (limit : option Z) (w : World)
    (c : ascii) (k : string) :
  FRED_API_KEY host = Some (String c k) ->
  (buildParams host seriesId (String c k) limit = Throw {| message := "Invalid time value" |}
   /\ fetchFREDSeries host seriesId limit w
      = (Throw {| message := "Invalid time value" |}, w))
  \/ (exists params r w',
        buildParams host seriesId (String c k) limit = Normal params
        /\ fetchFREDSeries host seriesId limit w = (r, w')
        /\ requests w' = (requests w ++ [{| endpoint := FRED_BASE_URL; query := params |}])%list).
Proof.
  intros H. unfold fetchFREDSeries. rewrite H.
  destruct (buildParams host seriesId (String c k) limit) as [params|e] eqn:E.
  - right. exists params.
    cbv beta iota delta [tryCatch bind awaitFetch issue ret throw awaitJson
                         consoleError lift].
    destruct (fetch host _) as [e|resp].
    + eexists. eexists. split; [reflexivity|]. split; reflexivity.
    + destruct (ok resp); cbv beta iota delta [negb].
      * destruct (json resp); eexists; eexists;
          (split; [reflexivity|]); split; reflexivity.
      * eexists. eexists. split; [reflexivity|]. split; reflexivity.
  - left. assert (e = {| message := "Invalid time value" |}) as ->.
    { unfold buildParams in E. destruct limit as [n|]; [|discriminate E].
      destruct (n =? 0); [discriminate E|].
      match type of E with context [toISODate ?x] => destruct x end.
      - discriminate E.
      - cbv beta iota delta [toISODate] in E. congruence. }
    split; reflexivity.
Qed.

End Fetcher.

(** C9. Without the FRED_API_KEY credential, fetchFREDSeries fails with
    the configuration error for every series identifier and every limit,
    and leaves the world as it was: no request has been issued. The
    failure is told apart from the others: an upstream-status error never
    has its message, and any failure of a call that has the credential
    either has another message or comes after a request was sent. *)
Theorem fetchFREDSeries_configuration_error
    (host : Host) (seriesId : string) (limit : option Z) (w : World) :
  FRED_API_KEY host = None ->
  fetchFREDSeries host seriesId limit w = (Throw configurationError, w)
  /\ message configurationError = "FRED_API_KEY environment variable is not set"
  /\ (forall r, message (upstreamError r) <> message configurationError)
  /\ (forall (other : Host) c k seriesId' limit' w1 e w2,
        FRED_API_KEY other = Some (String c k) ->
        fetchFREDSeries other seriesId' limit' w1 = (Throw e, w2) ->
        message e <> message configurationError
        \/ exists req, requests w2 = (requests w1 ++ [req])%list).
Proof.
  intros H. split; [apply fetchFREDSeries_without_key; left; exact H|].
  split; [reflexivity|]. split; [apply upstreamError_not_configuration|].
  intros other c k sid lim w1 e w2 K F.
  destruct (fetchFREDSeries_with_key other sid lim w1 c k K)
    as [[_ R]|(params & r & w' & _ & R & Q)]; clear H.
  - rewrite F in R. left. injection R as -> _.
    cbn [message]. discriminate.
  - rewrite F in R. injection R as _ <-. right. eexists. exact Q.
Qed.

(** ** The Metric Summarizer: latest value *)

Section Latest.

Lemma firstn_snoc {A : Type} (l : list A) :
  forall i x, nth_error l i = Some x -> firstn (S i) l = (firstn i l ++ [x])%list.
Proof.
  induction l as [|y l IH]; intros [|i] x H; simpl in *; try discriminate.
  - injection H as ->. reflexivity.
  - rewrite (IH i x H). reflexivity.
Qed.

Lemma getLatestValueFrom_find (observations : list FREDObservation) (n : nat) :
  (n <= List.length observations)%nat ->
  getLatestValueFrom observations n
  = valueOf (find isValid (rev (firstn n observations))).
Proof.
  induction n as [|i IH]; intros H; [reflexivity|].
  cbn [getLatestValueFrom].
  destruct (nth_error observations i) as [o|] eqn:E.
  - rewrite (firstn_snoc _ _ _ E), rev_app_distr. cbn [rev app find].
    destruct (isValid o); [reflexivity|]. apply IH. lia.
  - apply nth_error_None in E. lia.
Qed.

(** The backward scan returns the value of the last valid observation. *)
Lemma getLatestValue_find (observations : list FREDObservation) :
  getLatestValue observations = valueOf (find isValid (rev observations)).
Proof.
  unfold getLatestValue. rewrite getLatestValueFrom_find by lia.
  rewrite firstn_all. reflexivity.
Qed.

Lemma getLatestValue_last_valid (before after : list FREDObservation) (o : FREDObservation) :
  isValid o = true -> forallb (fun x => negb (isValid x)) after = true ->
  getLatestValue (before ++ o :: after) = Some (parseFloat (value o)).
Proof.
  intros Ho Ha. rewrite getLatestValue_find, rev_app_distr. cbn [rev].
  rewrite <- app_assoc. cbn [app].
  assert (F : forall l r, forallb (fun x => negb (isValid x)) l = true ->
                          find isValid (rev l ++ r) = find isValid r).
  { induction l as [|x l IH]; intros r Hl; [reflexivity|].
    cbn [forallb] in Hl. apply andb_prop in Hl as [Hx Hl].
    cbn [rev]. rewrite <- app_assoc. rewrite IH by exact Hl.
    cbn [app find]. apply negb_true_iff in Hx. rewrite Hx. reflexivity. }
  rewrite F by exact Ha. cbn [find]. rewrite Ho. reflexivity.
Qed.

Lemma getLatestValue_none (observations : list FREDObservation) :
  getLatestValue observations = None <-> filter isValid observations = [].
Proof.
  rewrite getLatestValue_find. split.
  - intros H. destruct (find isValid (rev observations)) as [o|] eqn:E; [discriminate|].
    destruct (filter isValid observations) as [|x l] eqn:F; [reflexivity|].
    assert (Hx : In x (filter isValid observations)) by (rewrite F; left; reflexivity).
    apply filter_In in Hx as [Hin Hv].
    pose proof (find_none _ _ E x) as N. rewrite <- in_rev in N.
    rewrite (N Hin) in Hv. discriminate.
  - intros H. destruct (find isValid (rev observations)) as [o|] eqn:E; [|reflexivity].
    apply find_some in E as [Hin Hv]. rewrite <- in_rev in Hin.
    assert (Hx : In o (filter isValid observations)) by (apply filter_In; split; assumption).
    rewrite H in Hx. destruct Hx.
Qed.

End Latest.

(** ** The Aggregator *)

Section Aggregator.

Variable host : Host.

Lemma parseFloat_no_change : parseFloat "+0.0%" = S754_zero false.
Proof. vm_compute. reflexivity. Qed.

Lemma getChangeType_no_change (metricId : string) :
  getChangeType "+0.0%" metricId = ChangeType.neutral.
Proof. unfold getChangeType. rewrite parseFloat_no_change. reflexivity. Qed.

(** What a series without any valid observation contributes. *)
Lemma series_without_data (obs : list FREDObservation) (format : number -> string) :
  filter isValid obs = [] ->
  transformFREDData host obs None = []
  /\ display (getLatestValue obs) format = "N/A"
  /\ getYearOverYearChange host obs = "+0.0%"
  /\ getMonthOverMonthChange obs = "+0.0%".
Proof.
  intros H. pose proof (proj2 (getLatestValue_none obs) H) as L.
  repeat split.
  - unfold transformFREDData. rewrite H. reflexivity.
  - rewrite L. reflexivity.
  - unfold getYearOverYearChange. rewrite L. reflexivity.
  - unfold getMonthOverMonthChange. rewrite H. reflexivity.
Qed.

Lemma noValidData_observations (c : Completion FREDResponse) (obs : list FREDObservation) :
  noValidData c -> observationsOf (settled c) = Normal obs ->
  filter isValid obs = [].
Proof.
  destruct c as [r|e]; cbn [settled observationsOf noValidData].
  - intros (obs' & E & H). rewrite E. intros [= <-].
    apply filter_all_missing. exact H.
  - intros _ [= <-]. reflexivity.
Qed.

(** The completion of a series fetch does not depend on what the world
    has recorded so far. *)
Lemma fetchFREDSeries_completion (seriesId : string) (limit : option Z) (w w' : World) :
  fst (fetchFREDSeries host seriesId limit w)
  = fst (fetchFREDSeries host seriesId limit w').
Proof.
  unfold fetchFREDSeries.
  destruct (FRED_API_KEY host) as [[|c k]|]; try reflexivity.
  destruct (buildParams host seriesId (String c k) limit) as [params|e]; [|reflexivity].
  cbv beta iota delta [tryCatch bind awaitFetch issue ret throw awaitJson
                       consoleError lift].
  destruct (fetch host _) as [e|resp]; [reflexivity|].
  destruct (ok resp); cbv beta iota delta [negb]; [|reflexivity].
  destruct (json resp); reflexivity.
Qed.

Lemma bind_settle {A B : Type} (m : M A) (k : Settled A -> M B) (w : World) :
  bind (settle m) k w = k (settled (fst (m w))) (snd (m w)).
Proof. reflexivity. Qed.


Lemma placeholder_year_over_year (obs : list FREDObservation)
    (format : number -> string) (i t d : string) :
  filter isValid obs = [] ->
  placeholder {| id := i; title := t;
                 metric_value := display (getLatestValue obs) format;
                 change := getYearOverYearChange host obs;
                 changeType := getChangeType (getYearOverYearChange host obs) i;
                 description := d |}.
Proof.
  intros H. destruct (series_without_data obs format H) as (_ & V & Y & _).
  unfold placeholder. cbn [metric_value change changeType].
  rewrite V, Y, getChangeType_no_change. repeat split.
Qed.

Lemma placeholder_month_over_month (obs : list FREDObservation)
    (format : number -> string) (i t d : string) :
  filter isValid obs = [] ->
  placeholder {| id := i; title := t;
                 metric_value := display (getLatestValue obs) format;
                 change := getMonthOverMonthChange obs;
                 changeType := getChangeType (getMonthOverMonthChange obs) i;
                 description := d |}.
Proof.
  intros H. destruct (series_without_data obs format H) as (_ & V & _ & M).
  unfold placeholder. cbn [metric_value change changeType].
  rewrite V, M, getChangeType_no_change. repeat split.
Qed.

End Aggregator.

(** C1. fetchAllHousingData completes normally on every host and in every
    world, whatever the five fetches do. The payload has exactly five
    metrics, with identifiers hpi, inventory, rent, permits, unemployment
    in this order, and its five chart sequences. A series whose fetch
    failed, or that carries no valid observation, has an empty chart
    sequence and the metric "N/A", "+0.0%", neutral. *)
Theorem fetchAllHousingData_well_shaped (host : Host) (w : World) :
  exists d w',
    fetchAllHousingData host w = (Normal d, w')
    /\ exists hpi inventory rent permits unemployment,
         metrics d = [hpi; inventory; rent; permits; unemployment]
         /\ map id (metrics d) = ["hpi"; "inventory"; "rent"; "permits"; "unemployment"]
         /\ (noValidData (fst (fetchFREDSeries host SERIES_IDS.housePriceIndex None w)) ->
               housePriceIndex d = [] /\ placeholder hpi)
         /\ (noValidData (fst (fetchFREDSeries host SERIES_IDS.activeListings None w)) ->
               activeListings d = [] /\ placeholder inventory)
         /\ (noValidData (fst (fetchFREDSeries host SERIES_IDS.rentCPI None w)) ->
               rentCPI d = [] /\ placeholder rent)
         /\ (noValidData (fst (fetchFREDSeries host SERIES_IDS.buildingPermits None w)) ->
               buildingPermits d = [] /\ placeholder permits)
         /\ (noValidData (fst (fetchFREDSeries host SERIES_IDS.unemploymentRate None w)) ->
               unemploymentRate d = [] /\ placeholder unemployment).
Proof.
  unfold fetchAllHousingData, tryCatch.
  rewrite bind_settle. cbv beta.
  rewrite bind_settle. cbv beta.
  rewrite bind_settle. cbv beta.
  rewrite bind_settle. cbv beta.
  rewrite bind_settle. cbv beta.
  set (w1 := snd (fetchFREDSeries host SERIES_IDS.housePriceIndex None w)).
  set (w2 := snd (fetchFREDSeries host SERIES_IDS.activeListings None w1)).
  set (w3 := snd (fetchFREDSeries host SERIES_IDS.buildingPermits None w2)).
  set (w4 := snd (fetchFREDSeries host SERIES_IDS.rentCPI None w3)).
  set (w5 := snd (fetchFREDSeries host SERIES_IDS.unemploymentRate None w4)).
  rewrite (fetchFREDSeries_completion host SERIES_IDS.activeListings None w1 w).
  rewrite (fetchFREDSeries_completion host SERIES_IDS.buildingPermits None w2 w).
  rewrite (fetchFREDSeries_completion host SERIES_IDS.rentCPI None w3 w).
  rewrite (fetchFREDSeries_completion host SERIES_IDS.unemploymentRate None w4 w).
  set (c1 := fst (fetchFREDSeries host SERIES_IDS.housePriceIndex None w)).
  set (c2 := fst (fetchFREDSeries host SERIES_IDS.activeListings None w)).
  set (c3 := fst (fetchFREDSeries host SERIES_IDS.buildingPermits None w)).
  set (c4 := fst (fetchFREDSeries host SERIES_IDS.rentCPI None w)).
  set (c5 := fst (fetchFREDSeries host SERIES_IDS.unemploymentRate None w)).
  clearbody c1 c2 c3 c4 c5 w5. clear w1 w2 w3 w4.
  unfold assemble. cbv beta iota delta [bind lift ret consoleError].
  assert (F :
    exists hpi inventory rent permits unemployment,
      metrics fallback = [hpi; inventory; rent; permits; unemployment]
      /\ map id (metrics fallback) = ["hpi"; "inventory"; "rent"; "permits"; "unemployment"]
      /\ (noValidData c1 -> housePriceIndex fallback = [] /\ placeholder hpi)
      /\ (noValidData c2 -> activeListings fallback = [] /\ placeholder inventory)
      /\ (noValidData c4 -> rentCPI fallback = [] /\ placeholder rent)
      /\ (noValidData c3 -> buildingPermits fallback = [] /\ placeholder permits)
      /\ (noValidData c5 -> unemploymentRate fallback = [] /\ placeholder unemployment)).
  { do 5 eexists. split; [reflexivity|]. split; [reflexivity|].
    repeat split. }
  destruct (observationsOf (settled c1)) as [o1|e1] eqn:E1;
    [|eexists; eexists; split; [reflexivity|exact F]].
  destruct (observationsOf (settled c2)) as [o2|e2] eqn:E2;
    [|eexists; eexists; split; [reflexivity|exact F]].
  destruct (observationsOf (settled c3)) as [o3|e3] eqn:E3;
    [|eexists; eexists; split; [reflexivity|exact F]].
  destruct (observationsOf (settled c4)) as [o4|e4] eqn:E4;
    [|eexists; eexists; split; [reflexivity|exact F]].
  destruct (observationsOf (settled c5)) as [o5|e5] eqn:E5;
    [|eexists; eexists; split; [reflexivity|exact F]].
  clear F. eexists. eexists. split; [reflexivity|].
  cbn [metrics housePriceIndex activeListings buildingPermits rentCPI unemploymentRate].
  unfold buildMetrics. cbv zeta.
  do 5 eexists. split; [reflexivity|]. split; [reflexivity|].
  split; [|split; [|split; [|split]]]; intros N.
  - pose proof (noValidData_observations c1 o1 N E1) as H.
    split; [exact (proj1 (series_without_data host _ (fun _ => "") H))|].
    apply (placeholder_year_over_year host); exact H.
  - pose proof (noValidData_observations c2 o2 N E2) as H.
    split; [exact (proj1 (series_without_data host _ (fun _ => "") H))|].
    apply (placeholder_month_over_month host); exact H.
  - pose proof (noValidData_observations c4 o4 N E4) as H.
    split; [exact (proj1 (series_without_data host _ (fun _ => "") H))|].
    apply (placeholder_year_over_year host); exact H.
  - pose proof (noValidData_observations c3 o3 N E3) as H.
    split; [exact (proj1 (series_without_data host _ (fun _ => "") H))|].
    apply (placeholder_month_over_month host); exact H.
  - pose proof (noValidData_observations c5 o5 N E5) as H.
    split; [exact (proj1 (series_without_data host _ (fun _ => "") H))|].
    apply (placeholder_month_over_month host); exact H.
Qed.

(** C3 (the code at a series whose only value is zero). The backward scan
    finds the value 0, which is a valid observation, and yet every metric
    displays "N/A": the guard [latest ? ... : 'N/A'] takes a zero for an
    absent value. *)
Theorem zero_latest_value_displays_NA (host : Host) :
  let obs := [{| date := "2024-01-01"; value := "0" |}] in
  filter isValid obs = obs
  /\ getLatestValue obs = Some (S754_zero false)
  /\ map metric_value (buildMetrics host obs obs obs obs obs)
     = ["N/A"; "N/A"; "N/A"; "N/A"; "N/A"].
Proof.
  intros obs.
  assert (L : getLatestValue obs = Some (S754_zero false))
    by (vm_compute; reflexivity).
  split; [reflexivity|]. split; [exact L|].
  unfold buildMetrics. cbv zeta. cbn [map metric_value].
  rewrite L. reflexivity.
Qed.

(** ** The civil calendar *)

Section Calendar.

Import JsDate.

Lemma DayFromYear_succ (y : Z) : DayFromYear (y + 1) = DayFromYear y + DaysInYear y.
Proof.
  unfold DayFromYear, DaysInYear, isLeapYear.
  destruct (Z.eqb_spec (y mod 4) 0), (Z.eqb_spec (y mod 100) 0),
    (Z.eqb_spec (y mod 400) 0); cbn [negb andb orb]; lia_div.
Qed.

Lemma DayFromYear_mono (a b : Z) :
  a <= b -> DayFromYear a + 365 * (b - a) <= DayFromYear b.
Proof. unfold DayFromYear. intros H. lia_div. Qed.

Lemma YearFromTime_estimate (y d : Z) :
  DayFromYear y <= d < DayFromYear (y + 1) ->
  y - 1 <= 1970 + (400 * d) / 146097 <= y + 1.
Proof. unfold DayFromYear. intros H. lia_div. Qed.


(** [YearFromTime] is the year whose days contain the day of [t]. *)
Lemma YearFromTime_unique (t y : Z) :
  DayFromYear y <= Day t < DayFromYear (y + 1) -> YearFromTime t = y.
Proof.
  intros H. unfold YearFromTime.
  pose proof (YearFromTime_estimate y (Day t) H) as E.
  set (y0 := 1970 + 400 * Day t / 146097) in *.
  pose proof (DayFromYear_succ y) as S1.
  assert (D : DaysInYear y = 365 \/ DaysInYear y = 366)
    by (unfold DaysInYear; destruct (isLeapYear y); auto).
  destruct (Z.leb_spec (DayFromYear (y0 + 1)) (Day t)) as [A|A].
  - destruct (Z.eq_dec y0 (y - 1)) as [->|N]; [lia|].
    pose proof (DayFromYear_mono (y + 1) (y0 + 1) ltac:(lia)). lia.
  - destruct (Z.leb_spec (DayFromYear y0) (Day t)) as [B|B].
    + destruct (Z.eq_dec y0 y) as [->|N]; [reflexivity|].
      destruct (Z.eq_dec y0 (y + 1)) as [->|N']; [lia|].
      assert (y0 = y - 1) as -> by lia.
      replace (y - 1 + 1) with y in A by lia. lia.
    + destruct (Z.eq_dec y0 (y + 1)) as [->|N]; [lia|].
      pose proof (DayFromYear_mono y0 y ltac:(lia)). lia.
Qed.

(** [YearFromTime t] is the largest year that starts at or before [t]. *)
Lemma YearFromTime_largest (t : Z) :
  TimeFromYear (YearFromTime t) <= t
  /\ forall y, TimeFromYear y <= t -> y <= YearFromTime t.
Proof.
  assert (B : DayFromYear (YearFromTime t) <= Day t < DayFromYear (YearFromTime t + 1)).
  { unfold YearFromTime. set (d := Day t).
    set (y0 := 1970 + 400 * d / 146097).
    assert (E : DayFromYear (y0 - 1) <= d < DayFromYear (y0 + 2))
      by (unfold DayFromYear, y0; lia_div).
    destruct (Z.leb_spec (DayFromYear (y0 + 1)) d) as [A|A].
    - replace (y0 + 1 + 1) with (y0 + 2) by lia. lia.
    - destruct (Z.leb_spec (DayFromYear y0) d) as [C|C]; [lia|].
      replace (y0 - 1 + 1) with y0 by lia. lia. }
  unfold TimeFromYear. split.
  - unfold Day, msPerDay in *. lia_div.
  - intros y H. destruct (Z.le_gt_cases y (YearFromTime t)) as [L|G]; [exact L|].
    pose proof (DayFromYear_mono (YearFromTime t + 1) y ltac:(lia)) as M.
    unfold Day, msPerDay in *. lia_div.
Qed.

Lemma monthOfDay_correct (leap : bool) (m d : Z) :
  0 <= m <= 11 -> monthStart leap m <= d < monthStart leap (m + 1) ->
  monthOfDay leap d 11 0 = m.
Proof.
  intros Hm H.
  assert (C : m = 0 \/ m = 1 \/ m = 2 \/ m = 3 \/ m = 4 \/ m = 5 \/ m = 6
              \/ m = 7 \/ m = 8 \/ m = 9 \/ m = 10 \/ m = 11) by lia.
  destruct leap;
    repeat (destruct C as [->|C]; [|]); try subst m;
    cbn [monthStart Z.add Pos.add Pos.succ] in H;
    cbn [monthOfDay monthStart Z.add Pos.add Pos.succ];
    repeat match goal with
           | |- context [?a <? ?b] => destruct (Z.ltb_spec a b); try lia
           end; try reflexivity.
Qed.

Lemma monthStart_bounds (leap : bool) (m : Z) :
  0 <= m <= 11 ->
  0 <= monthStart leap m /\ monthStart leap (m + 1) <= 365 + (if leap then 1 else 0).
Proof.
  intros Hm.
  assert (C : m = 0 \/ m = 1 \/ m = 2 \/ m = 3 \/ m = 4 \/ m = 5 \/ m = 6
              \/ m = 7 \/ m = 8 \/ m = 9 \/ m = 10 \/ m = 11) by lia.
  destruct leap; repeat (destruct C as [->|C]; [|]); try subst m;
    cbn [monthStart Z.add Pos.add Pos.succ]; lia.
Qed.

(** The calendar fields of an instant that lies, after any shift of less
    than a day, on day [date] of month [month] (0-based) of year [year]. *)
Lemma fields_of_MakeDay (year month date shift : Z) :
  0 <= month <= 11 -> 1 <= date <= DaysInMonth year month ->
  0 <= shift < msPerDay ->
  let t := MakeDate (MakeDay year month date) 0 + shift in
  YearFromTime t = year /\ MonthFromTime t = month /\ DateFromTime t = date.
Proof.
  intros Hm Hd Hs t.
  assert (Dd : Day t = DayFromYear year + monthStart (isLeapYear year) month + date - 1).
  { unfold t, Day, MakeDate, MakeDay.
    replace (month / 12) with 0 by lia_div.
    replace (month mod 12) with month by lia_div.
    rewrite !Z.add_0_r. unfold msPerDay in *.
    set (D := DayFromYear year + monthStart (isLeapYear year) month + date - 1).
    clearbody D. lia_div. }
  unfold DaysInMonth in Hd.
  pose proof (monthStart_bounds (isLeapYear year) month Hm) as [B1 B2].
  assert (Y : YearFromTime t = year).
  { apply YearFromTime_unique. rewrite DayFromYear_succ, Dd. unfold DaysInYear.
    destruct (isLeapYear year); lia. }
  assert (M : MonthFromTime t = month).
  { unfold MonthFromTime, InLeapYear, DayWithinYear. rewrite Y, Dd.
    apply monthOfDay_correct; [exact Hm|]. lia. }
  split; [exact Y|]. split; [exact M|].
  unfold DateFromTime, InLeapYear, DayWithinYear. rewrite M, Y, Dd. lia.
Qed.

End Calendar.

(** ** Date-only text *)

Section DateText.

Import JsDate.

Lemma spanDigits_allDigits (s : string) :
  forall ds r, Text.spanDigits s = (ds, r) -> Text.allDigits ds = true.
Proof.
  induction s as [|c s IH]; intros ds r H; cbn [Text.spanDigits] in H.
  - injection H as <- _. reflexivity.
  - destruct (Text.isDigit c) eqn:D.
    + destruct (Text.spanDigits s) as [d' t]. injection H as <- _.
      cbn [Text.allDigits]. rewrite D. exact (IH d' t eq_refl).
    + injection H as <- _. reflexivity.
Qed.

Lemma digitsValue_bounds (s : string) :
  forall acc, Text.allDigits s = true -> 0 <= acc ->
    10 ^ Z.of_nat (String.length s) * acc <= Text.digitsValue acc s
    < 10 ^ Z.of_nat (String.length s) * (acc + 1).
Proof.
  induction s as [|c s IH]; intros acc H A.
  - cbn [Text.digitsValue String.length]. change (10 ^ Z.of_nat 0) with 1. lia.
  - cbn [Text.allDigits] in H. apply andb_prop in H as [Hc Hs].
    cbn [Text.digitsValue String.length].
    rewrite Nat2Z.inj_succ, Z.pow_succ_r by lia.
    assert (V : 0 <= Text.digitValue c <= 9).
    { unfold Text.isDigit in Hc. unfold Text.digitValue.
      apply andb_prop in Hc as [L U].
      apply Z.leb_le in L. apply Z.leb_le in U. lia. }
    specialize (IH (10 * acc + Text.digitValue c) Hs ltac:(lia)).
    assert (P : 0 < 10 ^ Z.of_nat (String.length s)) by (apply Z.pow_pos_nonneg; lia).
    nia.
Qed.

Lemma fixedDigits_bounds (n : nat) (s : string) (v : Z) (rest : string) :
  fixedDigits n s = Some (v, rest) -> 0 <= v < 10 ^ Z.of_nat n.
Proof.
  unfold fixedDigits.
  destruct (Text.spanDigits (substring 0 n s)) as [ds r] eqn:E.
  destruct (Nat.eqb_spec (String.length ds) n) as [L|L]; [|discriminate].
  intros [= <- _].
  pose proof (digitsValue_bounds ds 0 (spanDigits_allDigits _ _ _ E) ltac:(lia)) as B.
  rewrite L in B. lia.
Qed.

Lemma isoDateOnly_fields (text : string) (y m d : Z) :
  isoDateOnly text = Some (y, m, d) ->
  0 <= y <= 9999 /\ 1 <= m <= 12 /\ 1 <= d <= DaysInMonth y (m - 1).
Proof.
  unfold isoDateOnly.
  destruct (fixedDigits 4 text) as [[y' r0]|] eqn:Y; [|discriminate].
  destruct r0 as [|c0 r1]; [discriminate|].
  destruct (Ascii.eqb_spec c0 "-") as [->|N].
  2:{ destruct c0 as [[] [] [] [] [] [] [] []]; try discriminate. contradiction. }
  destruct (fixedDigits 2 r1) as [[m' r2]|] eqn:M; [|discriminate].
  destruct r2 as [|c1 r3]; [discriminate|].
  destruct (Ascii.eqb_spec c1 "-") as [->|N].
  2:{ destruct c1 as [[] [] [] [] [] [] [] []]; try discriminate. contradiction. }
  destruct (fixedDigits 2 r3) as [[d' r4]|] eqn:D; [|discriminate].
  destruct r4; [|discriminate].
  destruct ((1 <=? m') && (m' <=? 12) && (1 <=? d') && (d' <=? DaysInMonth y' (m' - 1)))
    eqn:C; [|discriminate].
  intros [= <- <- <-].
  apply andb_prop in C as [C C4]. apply andb_prop in C as [C C3].
  apply andb_prop in C as [C1 C2].
  apply Z.leb_le in C1, C2, C3, C4.
  pose proof (fixedDigits_bounds _ _ _ _ Y) as By.
  change (10 ^ Z.of_nat 4) with 10000 in By. lia.
Qed.

End DateText.

(** ** Labels of chart points *)

Section Labels.

Variable host : Host.

Lemma utcMidnight_valid (y m d : Z) :
  0 <= y <= 9999 -> 1 <= m <= 12 -> 1 <= d <= JsDate.DaysInMonth y (m - 1) ->
  JsDate.TimeClip (utcMidnight y m d) = Some (utcMidnight y m d).
Proof.
  intros Hy Hm Hd. unfold JsDate.TimeClip.
  replace (Z.abs (utcMidnight y m d) <=? 8640000000000000) with true; [reflexivity|].
  symmetry. apply Z.leb_le.
  unfold utcMidnight, JsDate.MakeDate, JsDate.MakeDay, JsDate.msPerDay.
  replace ((m - 1) / 12) with 0 by lia_div.
  replace ((m - 1) mod 12) with (m - 1) by lia_div.
  rewrite !Z.add_0_r.
  pose proof (monthStart_bounds (JsDate.isLeapYear y) (m - 1) ltac:(lia)) as [B1 B2].
  unfold JsDate.DaysInMonth in Hd.
  replace (m - 1 + 1) with m in * by lia.
  assert (B3 : JsDate.monthStart (JsDate.isLeapYear y) m <= 366)
    by (destruct (JsDate.isLeapYear y); lia).
  assert (By : - 719528 <= JsDate.DayFromYear y <= 2932896)
    by (unfold JsDate.DayFromYear; lia_div).
  lia.
Qed.

Lemma monthYear_of_date_only (text : string) (y m d : Z) :
  JsDate.isoDateOnly text = Some (y, m, d) ->
  0 <= JsDate.LocalTZA (zone host) (utcMidnight y m d) true < JsDate.msPerDay ->
  monthYear host text = writtenMonthYear text.
Proof.
  intros P Hz. unfold monthYear, writtenMonthYear, JsDate.parse. rewrite P.
  destruct (isoDateOnly_fields text y m d P) as (Hy & Hm & Hd).
  fold (utcMidnight y m d). rewrite utcMidnight_valid by assumption.
  unfold JsDate.getMonth, JsDate.getFullYear, JsDate.LocalTime.
  destruct (fields_of_MakeDay y (m - 1) d
              (JsDate.LocalTZA (zone host) (utcMidnight y m d) true)
              ltac:(lia) Hd Hz) as (Y & M & _).
  fold (utcMidnight y m d) in Y, M. rewrite Y, M. reflexivity.
Qed.

End Labels.

(** C5 (amended). The label of a point depends on the observation and on
    the time zone of the host only, never on the request time. For an
    observation dated by a legal YYYY-MM-DD text, on a host whose local
    time at that UTC midnight is not behind UTC (and less than a day
    ahead), the label is the month and the year written in the text. *)
Theorem transformFREDData_label
    (host : Host) (obs : list FREDObservation) (limit : option Z) :
  (forall other, zone other = zone host ->
     transformFREDData other obs limit = transformFREDData host obs limit)
  /\ (forall o y m d,
        In o obs -> isValid o = true ->
        JsDate.isoDateOnly (date o) = Some (y, m, d) ->
        0 <= JsDate.LocalTZA (zone host) (utcMidnight y m d) true < JsDate.msPerDay ->
        In {| point_date := writtenMonthYear (date o);
              point_value := parseFloat (value o) |}
           (transformFREDData host obs None)).
Proof.
  split.
  - intros other Hzone. unfold transformFREDData. apply map_ext.
    intros o. unfold toPoint, monthYear. rewrite Hzone. reflexivity.
  - intros o y m d I V P Hz.
    rewrite <- (monthYear_of_date_only host (date o) y m d P Hz).
    unfold transformFREDData. apply in_map_iff. exists o.
    split; [reflexivity|]. apply filter_In. split; assumption.
Qed.

(** ** Year-over-year change *)

Section YearOverYear.

Variable host : Host.

Lemma findYearAgo_none (target : option Z) (obs : list FREDObservation) :
  (forall o, In o obs -> isValid o = true ->
     nearTarget (JsDate.parse (zone host) (date o)) target = false) ->
  findYearAgo host target obs = None.
Proof.
  induction obs as [|o l IH]; intros H; [reflexivity|].
  cbn [findYearAgo]. destruct (isValid o) eqn:V.
  - rewrite (H o (or_introl eq_refl) V). apply IH.
    intros x Hx. apply H. right. exact Hx.
  - apply IH. intros x Hx. apply H. right. exact Hx.
Qed.


End YearOverYear.


(** ** The test-suite of the repository, run on the model *)

Section TestSuite.

Example percentage_positive : calculatePercentageChange (ofZ 100) (ofZ 110) = "+10.0%".
Proof. vm_compute. reflexivity. Qed.

Example percentage_negative : calculatePercentageChange (ofZ 110) (ofZ 100) = "-9.1%".
Proof. vm_compute. reflexivity. Qed.

Example percentage_zero_old : calculatePercentageChange (ofZ 0) (ofZ 100) = "+0.0%".
Proof. vm_compute. reflexivity. Qed.

Example percentage_same : calculatePercentageChange (ofZ 100) (ofZ 100) = "+0.0%".
Proof. vm_compute. reflexivity. Qed.

Example percentage_large :
  calculatePercentageChange (ofZ 1) (parseFloat "1e20") = "+1e+22%".
Proof. vm_compute. reflexivity. Qed.

Example unemployment_falling :
  calculatePercentageChange (parseFloat "4.1") (parseFloat "3.8") = "-7.3%"
  /\ getChangeType "-7.3%" "unemployment" = ChangeType.positive.
Proof. vm_compute. split; reflexivity. Qed.

Example inventory_falling :
  calculatePercentageChange (parseFloat "13000") (parseFloat "12847") = "-1.2%"
  /\ getChangeType "-1.2%" "inventory" = ChangeType.negative.
Proof. vm_compute. split; reflexivity. Qed.

Example transform_empty (host : Host) : transformFREDData host [] None = [].
Proof. reflexivity. Qed.

Example limit_24_of_36 :
  let host := Sample.served Sample.january2024 in
  List.length (transformFREDData host Sample.threeYears None) = 36%nat
  /\ map point_date (transformFREDData host Sample.threeYears (Some 24))
     = ["Jan 2022"; "Feb 2022"; "Mar 2022"; "Apr 2022"; "May 2022"; "Jun 2022";
        "Jul 2022"; "Aug 2022"; "Sep 2022"; "Oct 2022"; "Nov 2022"; "Dec 2022";
        "Jan 2023"; "Feb 2023"; "Mar 2023"; "Apr 2023"; "May 2023"; "Jun 2023";
        "Jul 2023"; "Aug 2023"; "Sep 2023"; "Oct 2023"; "Nov 2023"; "Dec 2023"].
Proof. vm_compute. split; reflexivity. Qed.

Example fetch_all_series :
  exists d w,
    fetchAllHousingData (Sample.served Sample.january2024) Sample.emptyWorld = (Normal d, w)
    /\ List.length (requests w) = 5%nat
    /\ map id (metrics d) = ["hpi"; "inventory"; "rent"; "permits"; "unemployment"]
    /\ map metric_value (metrics d) = ["284.5"; "12,847"; "156.8"; "2,341"; "3.8%"]
    /\ map change (metrics d) = ["+1.6%"; "-1.2%"; "+4.5%"; "+6.4%"; "-7.3%"]
    /\ forallb signedOneDecimal (map change (metrics d)) = true.
Proof. eexists. eexists. vm_compute. repeat split. Qed.

Example fetch_partial_failure :
  exists d w,
    fetchAllHousingData (Sample.hostAt Sample.utc Sample.january2024) Sample.emptyWorld
    = (Normal d, w)
    /\ List.length (metrics d) = 5%nat
    /\ map point_date (housePriceIndex d) = ["Jan 2023"; "Jan 2024"]
    /\ activeListings d = []
    /\ console w = ["Error fetching FRED series ACTLISCOU26420: API Error"].
Proof. eexists. eexists. vm_compute. repeat split. Qed.

Example fetch_upstream_error :
  let bad := fun _ : Request =>
               Resolves {| ok := false; status := 400; statusText := "Bad Request";
                           json := BodyJson {| observations := None |} |} in
  fst (fetchFREDSeries {| zone := Sample.utc; now := Sample.january2024;
                          FRED_API_KEY := Some "test-api-key"; fetch := bad |}
         "INVALID_SERIES" None Sample.emptyWorld)
  = Throw {| message := "FRED API error: 400 Bad Request" |}.
Proof. vm_compute. reflexivity. Qed.

Example fetch_date_range :
  map (fun r => skipn 5 (query r))
      (requests (snd (fetchFREDSeries (Sample.served Sample.january2024)
                        "ATNHPIUS26420Q" (Some 24) Sample.emptyWorld)))
  = [[("observation_start", "2022-01-15"); ("observation_end", "2024-01-15")]].
Proof. vm_compute. reflexivity. Qed.

End TestSuite.

(** ** The properties at the data of the test-suite *)

Lemma transformFREDData_last_n_witness :
  0 < 2
  /\ (let all := transformFREDData (Sample.hostAt Sample.central Sample.january2024)
                   Sample.withMissing None in
      let res := transformFREDData (Sample.hostAt Sample.central Sample.january2024)
                   Sample.withMissing (Some 2) in
      all = map (toPoint (Sample.hostAt Sample.central Sample.january2024))
              (filter isValid Sample.withMissing)
      /\ res = skipn (List.length all - Z.to_nat 2) all
      /\ List.length res = Nat.min (Z.to_nat 2) (List.length all)
      /\ exists older, all = (older ++ res)%list).
Proof.
  split; [reflexivity|].
  apply (transformFREDData_last_n (Sample.hostAt Sample.central Sample.january2024)
           Sample.withMissing 2).
  reflexivity.
Defined.

Lemma transformFREDData_limit_zero_witness :
  let host := Sample.hostAt Sample.utc Sample.january2024 in
  let april := Sample.observation "2023-04-01" "102.0" in
  (In april Sample.withMissing /\ isValid april = true)
  /\ In {| point_date := "Apr 2023"; point_value := parseFloat "102.0" |}
        (transformFREDData host Sample.withMissing (Some 0))
  /\ map point_date (transformFREDData host Sample.withMissing (Some 0))
     = ["Jan 2023"; "Feb 2023"; "Apr 2023"]
  /\ List.length (transformFREDData host Sample.withMissing (Some 0)) = 3%nat.
Proof.
  intros host april.
  assert (I : In april Sample.withMissing)
    by (right; right; right; left; reflexivity).
  pose proof (transformFREDData_limit_zero host Sample.withMissing) as (_ & E & P & L).
  split; [exact (conj I eq_refl)|].
  split; [exact (P april I eq_refl)|].
  split; [rewrite E; vm_compute; reflexivity|exact L].
Defined.

Lemma transformFREDData_drops_missing_witness :
  let host := Sample.hostAt Sample.central Sample.january2024 in
  let gap := Sample.observation "2023-03-01" "." in
  let april := Sample.observation "2023-04-01" "102.0" in
  ((value gap = "." \/ value gap = "") /\
   transformFREDData host [gap; april] None = transformFREDData host [april] None)
  /\ ((value april <> "." /\ value april <> "") /\
      transformFREDData host [april] None = toPoint host april :: transformFREDData host [] None)
  /\ ((forall o, In o [gap; gap] -> value o = "." \/ value o = "") /\
      transformFREDData host [gap; gap] (Some 24) = []).
Proof.
  intros host gap april.
  pose proof (transformFREDData_drops_missing host) as (_ & Drop & Keep & Empty).
  assert (G : value gap = "." \/ value gap = "") by (left; reflexivity).
  assert (A1 : value april <> ".") by discriminate.
  assert (A2 : value april <> "") by discriminate.
  assert (GG : forall o, In o [gap; gap] -> value o = "." \/ value o = "").
  { intros o [<-|[<-|[]]]; exact G. }
  split; [split; [exact G|exact (Drop gap [april] G)]|].
  split; [split; [split; assumption|exact (Keep april [] A1 A2)]|].
  split; [exact GG|exact (Empty [gap; gap] (Some 24) GG)].
Defined.

Lemma getChangeType_polarity_witness :
  (strictEq (parseFloat "+0.0%") zero = true /\
   getChangeType "+0.0%" "unemployment" = ChangeType.neutral)
  /\ (lt (parseFloat "-7.3%") zero = true /\
      getChangeType "-7.3%" "unemployment" = ChangeType.positive)
  /\ (lt (parseFloat "-1.2%") zero = true /\
      getChangeType "-1.2%" "inventory" = ChangeType.negative)
  /\ (gt (parseFloat "+1.6%") zero = true /\
      getChangeType "+1.6%" "hpi" = ChangeType.positive).
Proof.
  assert (Z0 : strictEq (parseFloat "+0.0%") zero = true) by (vm_compute; reflexivity).
  assert (N1 : lt (parseFloat "-7.3%") zero = true) by (vm_compute; reflexivity).
  assert (N2 : lt (parseFloat "-1.2%") zero = true) by (vm_compute; reflexivity).
  assert (P1 : gt (parseFloat "+1.6%") zero = true) by (vm_compute; reflexivity).
  split; [split; [exact Z0|exact (proj1 (getChangeType_polarity "+0.0%" "unemployment") Z0)]|].
  split; [split; [exact N1|exact (proj1 (proj2 (getChangeType_polarity "-7.3%" "unemployment")) N1)]|].
  split; [split; [exact N2|exact (proj1 (proj2 (getChangeType_polarity "-1.2%" "inventory")) N2)]|].
  split; [exact P1|exact (proj2 (proj2 (getChangeType_polarity "+1.6%" "hpi")) P1)].
Defined.

Lemma calculatePercentageChange_one_decimal_witness :
  (strictEq (ofZ 0) zero = true /\
   calculatePercentageChange (ofZ 0) (ofZ 100) = "+0.0%")
  /\ (strictEq (ofZ 100) zero = false /\
      mul (div (sub (ofZ 100) (ofZ 100)) (ofZ 100)) (ofZ 100) = S754_zero false /\
      calculatePercentageChange (ofZ 100) (ofZ 100) = "+0.0%")
  /\ (strictEq (ofZ 110) zero = false /\
      mul (div (sub (ofZ 100) (ofZ 110)) (ofZ 110)) (ofZ 100)
      = S754_finite true 5117726849284655 (-49) /\
      floorMag 5117726849284655 (-49) < 10 ^ 21 /\
      calculatePercentageChange (ofZ 110) (ofZ 100) = "-9.1%").
Proof.
  assert (Z0 : strictEq (ofZ 0) zero = true) by (vm_compute; reflexivity).
  assert (N1 : strictEq (ofZ 100) zero = false) by (vm_compute; reflexivity).
  assert (C1 : mul (div (sub (ofZ 100) (ofZ 100)) (ofZ 100)) (ofZ 100) = S754_zero false)
    by (vm_compute; reflexivity).
  assert (N2 : strictEq (ofZ 110) zero = false) by (vm_compute; reflexivity).
  assert (C2 : mul (div (sub (ofZ 100) (ofZ 110)) (ofZ 110)) (ofZ 100)
               = S754_finite true 5117726849284655 (-49))
    by (vm_compute; reflexivity).
  assert (F2 : floorMag 5117726849284655 (-49) < 10 ^ 21) by (vm_compute; reflexivity).
  split;
    [split; [exact Z0
            |exact (proj1 (calculatePercentageChange_one_decimal (ofZ 0) (ofZ 100)) Z0)]|].
  split;
    [split; [exact N1|split; [exact C1
            |exact (proj1 (proj2 (calculatePercentageChange_one_decimal (ofZ 100) (ofZ 100)))
                      N1 false C1)]]|].
  split; [exact N2|]. split; [exact C2|]. split; [exact F2|].
  exact (proj2 (proj2 (calculatePercentageChange_one_decimal (ofZ 110) (ofZ 100)))
           N2 true 5117726849284655%positive (-49) C2 F2).
Defined.

Lemma fetchFREDSeries_configuration_error_witness :
  FRED_API_KEY Sample.withoutKey = None
  /\ fetchFREDSeries Sample.withoutKey "ATNHPIUS26420Q" (Some 24) Sample.emptyWorld
     = (Throw configurationError, Sample.emptyWorld).
Proof.
  split; [reflexivity|].
  exact (proj1 (fetchFREDSeries_configuration_error Sample.withoutKey "ATNHPIUS26420Q"
                  (Some 24) Sample.emptyWorld eq_refl)).
Defined.

Lemma fetchAllHousingData_well_shaped_witness :
  (noValidData (fst (fetchFREDSeries Sample.withoutKey SERIES_IDS.housePriceIndex None Sample.emptyWorld))
   /\ noValidData (fst (fetchFREDSeries Sample.withoutKey SERIES_IDS.activeListings None Sample.emptyWorld))
   /\ noValidData (fst (fetchFREDSeries Sample.withoutKey SERIES_IDS.rentCPI None Sample.emptyWorld))
   /\ noValidData (fst (fetchFREDSeries Sample.withoutKey SERIES_IDS.buildingPermits None Sample.emptyWorld))
   /\ noValidData (fst (fetchFREDSeries Sample.withoutKey SERIES_IDS.unemploymentRate None Sample.emptyWorld)))
  /\ exists d w',
       fetchAllHousingData Sample.withoutKey Sample.emptyWorld = (Normal d, w')
       /\ map id (metrics d) = ["hpi"; "inventory"; "rent"; "permits"; "unemployment"]
       /\ Forall placeholder (metrics d)
       /\ housePriceIndex d = [] /\ activeListings d = [] /\ rentCPI d = []
       /\ buildingPermits d = [] /\ unemploymentRate d = [].
Proof.
  assert (N : forall s, noValidData (fst (fetchFREDSeries Sample.withoutKey s None Sample.emptyWorld)))
    by (intros s; exact I).
  split; [repeat split; apply N|].
  destruct (fetchAllHousingData_well_shaped Sample.withoutKey Sample.emptyWorld)
    as (d & w' & E & hpi & inventory & rent & permits & unemployment
        & L & Ids & H1 & H2 & H3 & H4 & H5).
  exists d, w'. split; [exact E|]. split; [exact Ids|].
  destruct (H1 (N _)) as [C1 P1]. destruct (H2 (N _)) as [C2 P2].
  destruct (H3 (N _)) as [C3 P3]. destruct (H4 (N _)) as [C4 P4].
  destruct (H5 (N _)) as [C5 P5].
  split; [rewrite L; repeat (constructor; [assumption|]); constructor|].
  repeat split; assumption.
Defined.

Lemma transformFREDData_label_witness :
  let host := Sample.hostAt Sample.utc Sample.january2024 in
  let o := Sample.observation "2023-01-01" "100.5" in
  (In o Sample.withMissing /\ isValid o = true
   /\ JsDate.isoDateOnly (date o) = Some (2023, 1, 1)
   /\ 0 <= JsDate.LocalTZA (zone host) (utcMidnight 2023 1 1) true < JsDate.msPerDay)
  /\ In {| point_date := "Jan 2023"; point_value := parseFloat "100.5" |}
        (transformFREDData host Sample.withMissing None).
Proof.
  intros host o.
  assert (I : In o Sample.withMissing) by (left; reflexivity).
  assert (V : isValid o = true) by reflexivity.
  assert (P : JsDate.isoDateOnly (date o) = Some (2023, 1, 1)) by (vm_compute; reflexivity).
  assert (T : 0 <= JsDate.LocalTZA (zone host) (utcMidnight 2023 1 1) true < JsDate.msPerDay)
    by (split; [discriminate|reflexivity]).
  split; [exact (conj I (conj V (conj P T)))|].
  exact (proj2 (transformFREDData_label host Sample.withMissing None) o 2023 1 1 I V P T).
Defined.



(** C4 does not hold as stated. For the finite, non-zero prior value
    1e-300 and the new value 1e300 the quotient overflows: the result is
    "+Infinity%", which is not a number with one decimal. A prior value
    that is NaN gives "NaN%", without any sign. *)
Lemma calculatePercentageChange_not_one_decimal :
  strictEq (parseFloat "1e-300") zero = false
  /\ calculatePercentageChange (parseFloat "1e-300") (parseFloat "1e300") = "+Infinity%"
  /\ signedOneDecimal
       (calculatePercentageChange (parseFloat "1e-300") (parseFloat "1e300")) = false
  /\ strictEq nan zero = false
  /\ calculatePercentageChange nan (ofZ 1) = "NaN%"
  /\ signedOneDecimal (calculatePercentageChange nan (ofZ 1)) = false.
Proof. vm_compute. repeat split. Qed.

(** C5 does not hold as stated. On a host six hours behind UTC, the
    observations dated 2023-01-01, 2023-02-01 and 2023-04-01 are labelled
    with the month before the one written in their dates, as the
    test-suite of the repository expects. *)
Lemma transformFREDData_label_shifted :
  let host := Sample.hostAt Sample.central Sample.january2024 in
  map point_date (transformFREDData host Sample.withMissing None)
  = ["Dec 2022"; "Jan 2023"; "Mar 2023"]
  /\ map (fun o => writtenMonthYear (date o)) (filter isValid Sample.withMissing)
     = ["Jan 2023"; "Feb 2023"; "Apr 2023"]
  /\ map point_date (transformFREDData host Sample.withMissing None)
     <> map (fun o => writtenMonthYear (date o)) (filter isValid Sample.withMissing).
Proof.
  intros host.
  assert (A : map point_date (transformFREDData host Sample.withMissing None)
              = ["Dec 2022"; "Jan 2023"; "Mar 2023"]) by (vm_compute; reflexivity).
  assert (B : map (fun o => writtenMonthYear (date o)) (filter isValid Sample.withMissing)
              = ["Jan 2023"; "Feb 2023"; "Apr 2023"]) by (vm_compute; reflexivity).
  split; [exact A|]. split; [exact B|]. rewrite A, B. discriminate.
Qed.

(** * Further properties *)

Import Outcome.

(** ** The Series Fetcher: what is sent, returned and logged *)

Section FetcherRuns.

Variable host : Host.

Lemma buildParams_without_range (seriesId apiKey : string) (limit : option Z) :
  limit = None \/ limit = Some 0 ->
  buildParams host seriesId apiKey limit = Normal (baseQuery seriesId apiKey).
Proof. intros [->| ->]; reflexivity. Qed.

(** The run of a call that has the credential and whose query is built. *)
Lemma fetchFREDSeries_sent (seriesId : string) (limit : option Z) (c : ascii)
    (k : string) (params : list (string * string)) (w : World) :
  FRED_API_KEY host = Some (String c k) ->
  buildParams host seriesId (String c k) limit = Normal params ->
  let req := {| endpoint := FRED_BASE_URL; query := params |} in
  let sent := (requests w ++ [req])%list in
  let failed e :=
    (Throw e, {| requests := sent;
                 console := (console w ++ [seriesErrorLine seriesId e])%list |}) in
  fetchFREDSeries host seriesId limit w
  = match fetch host req with
    | Rejects e => failed e
    | Resolves resp =>
        if ok resp then
          match json resp with
          | BodyJson data => (Normal data, {| requests := sent; console := console w |})
          | BodyFails e => failed e
          end
        else failed (upstreamError resp)
    end.
Proof.
  intros K P req sent failed. unfold fetchFREDSeries. rewrite K, P.
  cbv beta iota delta [tryCatch bind awaitFetch issue ret throw awaitJson
                       consoleError lift].
  fold req. destruct (fetch host req) as [e|resp]; [reflexivity|].
  destruct (ok resp); cbv beta iota delta [negb]; [|reflexivity].
  destruct (json resp); reflexivity.
Qed.

End FetcherRuns.

(** X1. With a credential and no limit (or a limit of 0), a series whose
    request is answered with a success status and a JSON body returns
    that body. Exactly one request has been sent, to the FRED endpoint,
    with the series identifier, the credential, the JSON format, the
    ascending order and the linear units and without any date range, and
    nothing is written to the console. *)
Theorem fetchFREDSeries_returns_body
    (host : Host) (seriesId : string) (limit : option Z) (c : ascii) (k : string)
    (resp : Response) (data : FREDResponse) (w : World) :
  FRED_API_KEY host = Some (String c k) ->
  limit = None \/ limit = Some 0 ->
  fetch host (requestFor seriesId (String c k)) = Resolves resp ->
  ok resp = true ->
  json resp = BodyJson data ->
  fetchFREDSeries host seriesId limit w
  = (Normal data,
     {| requests := (requests w ++ [requestFor seriesId (String c k)])%list;
        console := console w |}).
Proof.
  intros K L F O J.
  rewrite (fetchFREDSeries_sent host seriesId limit c k _ w K
             (buildParams_without_range host seriesId (String c k) limit L)).
  fold (requestFor seriesId (String c k)). rewrite F, O, J. reflexivity.
Qed.

(** X2. Once the request is sent, every failure is logged once and
    rethrown: a transport error and a body that cannot be read are
    rethrown as they are, and a response whose status is not a success
    throws "FRED API error: status statusText" without its body being
    read. In each case one request was sent and one line names the series
    and the error on the console. *)
Theorem fetchFREDSeries_failure_logged
    (host : Host) (seriesId : string) (limit : option Z) (c : ascii) (k : string)
    (params : list (string * string)) (w : World) :
  FRED_API_KEY host = Some (String c k) ->
  buildParams host seriesId (String c k) limit = Normal params ->
  let req := {| endpoint := FRED_BASE_URL; query := params |} in
  let failed e :=
    (@Throw FREDResponse e,
     {| requests := (requests w ++ [req])%list;
        console := (console w ++ [seriesErrorLine seriesId e])%list |}) in
  (forall e, fetch host req = Rejects e ->
     fetchFREDSeries host seriesId limit w = failed e)
  /\ (forall resp, fetch host req = Resolves resp -> ok resp = false ->
        fetchFREDSeries host seriesId limit w = failed (upstreamError resp))
  /\ (forall resp e, fetch host req = Resolves resp -> ok resp = true ->
        json resp = BodyFails e ->
        fetchFREDSeries host seriesId limit w = failed e).
Proof.
  intros K P req failed.
  pose proof (fetchFREDSeries_sent host seriesId limit c k params w K P) as R.
  cbv zeta in R. fold req in R. repeat split.
  - intros e F. rewrite R, F. reflexivity.
  - intros resp F O. rewrite R, F, O. reflexivity.
  - intros resp e F O J. rewrite R, F, O, J. reflexivity.
Qed.

(** X3. A credential that is present but empty is treated like a missing
    one: the call fails with the configuration error, and nothing is
    sent or logged. *)
Theorem fetchFREDSeries_empty_key
    (host : Host) (seriesId : string) (limit : option Z) (w : World) :
  FRED_API_KEY host = Some "" ->
  fetchFREDSeries host seriesId limit w = (Throw configurationError, w).
Proof.
  intros H. apply fetchFREDSeries_without_key. right. exact H.
Qed.

(** X4. With a credential and a limit n that is not zero, the request
    carries, after the five usual parameters, observation_start, the UTC
    date of the request time moved back by n months of local time, and
    observation_end, the UTC date of the request time. When the start
    date leaves the range of Date, the call throws "Invalid time value"
    before anything is sent, and without a line on the console. *)
Theorem fetchFREDSeries_date_range
    (host : Host) (seriesId : string) (n : Z) (c : ascii) (k : string) (w : World) :
  FRED_API_KEY host = Some (String c k) ->
  n <> 0 ->
  let start :=
    JsDate.setMonth (zone host) (now host)
      (JsDate.getMonth (zone host) (now host) - n) in
  (start = None ->
     fetchFREDSeries host seriesId (Some n) w
     = (Throw {| message := "Invalid time value" |}, w))
  /\ (forall t, start = Some t ->
        requests (snd (fetchFREDSeries host seriesId (Some n) w))
        = (requests w
           ++ [{| endpoint := FRED_BASE_URL;
                  query := (baseQuery seriesId (String c k)
                            ++ [("observation_start", JsDate.isoDatePart t);
                                ("observation_end", JsDate.isoDatePart (now host))])%list
               |}])%list).
Proof.
  intros K N start. split.
  - intros S. unfold fetchFREDSeries. rewrite K. unfold buildParams.
    replace (n =? 0) with false by (symmetry; apply Z.eqb_neq; exact N).
    fold start. rewrite S. reflexivity.
  - intros t S.
    assert (P : buildParams host seriesId (String c k) (Some n)
                = Normal (baseQuery seriesId (String c k)
                          ++ [("observation_start", JsDate.isoDatePart t);
                              ("observation_end", JsDate.isoDatePart (now host))])%list).
    { unfold buildParams.
      replace (n =? 0) with false by (symmetry; apply Z.eqb_neq; exact N).
      fold start. rewrite S. reflexivity. }
    rewrite (fetchFREDSeries_sent host seriesId (Some n) c k _ w K P).
    match goal with |- context [fetch host ?r] => destruct (fetch host r) as [e|resp] end;
      [reflexivity|].
    destruct (ok resp); [|reflexivity]. destruct (json resp); reflexivity.
Qed.

(** ** The Aggregator: what the payload is made of *)

Section AggregatorRuns.

Variable host : Host.

Lemma observationsOf_series (c : Completion FREDResponse) :
  observationsOf (settled c)
  = match seriesObservations c with
    | Some obs => Normal obs
    | None => Throw {| message := "Cannot read properties of undefined (reading 'length')" |}
    end.
Proof. destruct c as [r|e]; [|reflexivity]. cbn. destruct (observations r); reflexivity. Qed.

(** The run of the aggregator, from the completions of its five calls. *)
Lemma fetchAllHousingData_run (w : World) :
  let c := fun seriesId => fst (fetchFREDSeries host seriesId None w) in
  exists w5,
    requests w5
    = requests (snd (fetchFREDSeries host SERIES_IDS.unemploymentRate None
              (snd (fetchFREDSeries host SERIES_IDS.rentCPI None
                 (snd (fetchFREDSeries host SERIES_IDS.buildingPermits None
                    (snd (fetchFREDSeries host SERIES_IDS.activeListings None
                       (snd (fetchFREDSeries host SERIES_IDS.housePriceIndex None w))))))))))
    /\ fetchAllHousingData host w
       = match seriesObservations (c SERIES_IDS.housePriceIndex),
               seriesObservations (c SERIES_IDS.activeListings),
               seriesObservations (c SERIES_IDS.buildingPermits),
               seriesObservations (c SERIES_IDS.rentCPI),
               seriesObservations (c SERIES_IDS.unemploymentRate) with
         | Some o1, Some o2, Some o3, Some o4, Some o5 =>
             (Normal (assembled host o1 o2 o3 o4 o5), w5)
         | _, _, _, _, _ =>
             (Normal fallback,
              {| requests := requests w5;
                 console := (console w5 ++ [assemblyErrorLine])%list |})
         end.
Proof.
  intros c. unfold fetchAllHousingData, tryCatch.
  rewrite bind_settle. cbv beta.
  rewrite bind_settle. cbv beta.
  rewrite bind_settle. cbv beta.
  rewrite bind_settle. cbv beta.
  rewrite bind_settle. cbv beta.
  set (w1 := snd (fetchFREDSeries host SERIES_IDS.housePriceIndex None w)).
  set (w2 := snd (fetchFREDSeries host SERIES_IDS.activeListings None w1)).
  set (w3 := snd (fetchFREDSeries host SERIES_IDS.buildingPermits None w2)).
  set (w4 := snd (fetchFREDSeries host SERIES_IDS.rentCPI None w3)).
  set (w5 := snd (fetchFREDSeries host SERIES_IDS.unemploymentRate None w4)).
  rewrite (fetchFREDSeries_completion host SERIES_IDS.activeListings None w1 w).
  rewrite (fetchFREDSeries_completion host SERIES_IDS.buildingPermits None w2 w).
  rewrite (fetchFREDSeries_completion host SERIES_IDS.rentCPI None w3 w).
  rewrite (fetchFREDSeries_completion host SERIES_IDS.unemploymentRate None w4 w).
  exists w5. split; [reflexivity|].
  fold (c SERIES_IDS.housePriceIndex) (c SERIES_IDS.activeListings)
       (c SERIES_IDS.buildingPermits) (c SERIES_IDS.rentCPI)
       (c SERIES_IDS.unemploymentRate).
  clearbody w5. clear w1 w2 w3 w4.
  unfold assemble. cbv beta iota delta [bind lift ret consoleError].
  rewrite !observationsOf_series.
  destruct (seriesObservations (c SERIES_IDS.housePriceIndex)); [|reflexivity].
  destruct (seriesObservations (c SERIES_IDS.activeListings)); [|reflexivity].
  destruct (seriesObservations (c SERIES_IDS.buildingPermits)); [|reflexivity].
  destruct (seriesObservations (c SERIES_IDS.rentCPI)); [|reflexivity].
  destruct (seriesObservations (c SERIES_IDS.unemploymentRate)); reflexivity.
Qed.

Lemma assembled_without_data (o1 o2 o3 o4 o5 : list FREDObservation) :
  filter isValid o1 = [] -> filter isValid o2 = [] -> filter isValid o3 = [] ->
  filter isValid o4 = [] -> filter isValid o5 = [] ->
  assembled host o1 o2 o3 o4 o5 = fallback.
Proof.
  intros H1 H2 H3 H4 H5. unfold assembled, buildMetrics. cbv zeta.
  pose proof (fun f => series_without_data host o1 f H1) as S1.
  pose proof (fun f => series_without_data host o2 f H2) as S2.
  pose proof (fun f => series_without_data host o3 f H3) as S3.
  pose proof (fun f => series_without_data host o4 f H4) as S4.
  pose proof (fun f => series_without_data host o5 f H5) as S5.
  destruct (S1 (fun v => toFixed v 1)) as (-> & -> & -> & _).
  destruct (S2 (fun v => formatNumber (round v))) as (-> & -> & _ & ->).
  destruct (S3 (fun v => formatNumber (round v))) as (-> & -> & _ & ->).
  destruct (S4 (fun v => toFixed v 1)) as (-> & -> & -> & _).
  destruct (S5 (fun v => toFixed v 1 ++ "%")) as (-> & -> & _ & ->).
  rewrite !getChangeType_no_change. reflexivity.
Qed.

Lemma noValidData_series (c : Completion FREDResponse) :
  noValidData c ->
  exists obs, seriesObservations c = Some obs /\ filter isValid obs = [].
Proof.
  destruct c as [r|e]; cbn [noValidData seriesObservations].
  - intros (obs & E & H). exists obs. split; [exact E|].
    apply filter_all_missing. exact H.
  - intros _. exists []. split; reflexivity.
Qed.

End AggregatorRuns.

(** X5. When none of the five series has data (each fetch failed or
    brought no valid observation), the payload assembled from the five
    empty series is, member for member, the literal that the catch clause
    returns. *)
Theorem fetchAllHousingData_all_without_data (host : Host) (w : World) :
  (forall seriesId, In seriesId seriesInCallOrder ->
     noValidData (fst (fetchFREDSeries host seriesId None w))) ->
  fst (fetchAllHousingData host w) = Normal fallback.
Proof.
  intros H.
  destruct (fetchAllHousingData_run host w) as (w5 & _ & R). cbv beta zeta in R.
  rewrite R. clear R.
  destruct (noValidData_series _ (H SERIES_IDS.housePriceIndex ltac:(simpl; tauto)))
    as (o1 & -> & F1).
  destruct (noValidData_series _ (H SERIES_IDS.activeListings ltac:(simpl; tauto)))
    as (o2 & -> & F2).
  destruct (noValidData_series _ (H SERIES_IDS.buildingPermits ltac:(simpl; tauto)))
    as (o3 & -> & F3).
  destruct (noValidData_series _ (H SERIES_IDS.rentCPI ltac:(simpl; tauto)))
    as (o4 & -> & F4).
  destruct (noValidData_series _ (H SERIES_IDS.unemploymentRate ltac:(simpl; tauto)))
    as (o5 & -> & F5).
  cbn [fst]. rewrite (assembled_without_data host o1 o2 o3 o4 o5 F1 F2 F3 F4 F5).
  reflexivity.
Qed.

(** The run of the aggregator on a host without credential. *)
Lemma fetchAllHousingData_keyless (host : Host) (w : World) :
  FRED_API_KEY host = None \/ FRED_API_KEY host = Some "" ->
  fetchAllHousingData host w = (Normal fallback, w).
Proof.
  intros K.
  assert (F : forall seriesId w', fetchFREDSeries host seriesId None w'
                                  = (Throw configurationError, w'))
    by (intros; apply fetchFREDSeries_without_key; exact K).
  unfold fetchAllHousingData, tryCatch.
  rewrite bind_settle, F. cbv beta. cbn [fst snd].
  rewrite bind_settle, F. cbv beta. cbn [fst snd].
  rewrite bind_settle, F. cbv beta. cbn [fst snd].
  rewrite bind_settle, F. cbv beta. cbn [fst snd].
  rewrite bind_settle, F. cbv beta. cbn [fst snd].
  unfold assemble. cbv beta iota delta [bind lift ret settled observationsOf].
  fold (assembled host [] [] [] [] []).
  rewrite (assembled_without_data host [] [] [] [] [] eq_refl eq_refl eq_refl eq_refl eq_refl).
  reflexivity.
Qed.

(** X6. Without the credential (missing or empty) the aggregator returns
    the all-"N/A" payload and leaves the world as it was: no request is
    sent and not a single line is written to the console. *)
Theorem fetchAllHousingData_without_key (host : Host) (w : World) :
  FRED_API_KEY host = None \/ FRED_API_KEY host = Some "" ->
  fetchAllHousingData host w = (Normal fallback, w).
Proof. exact (fetchAllHousingData_keyless host w). Qed.

(** X7. Failures are isolated: when every body that arrived carries its
    observations, the payload is assembled series by series, each chart
    and each metric from the observations of its own series, a failed
    series counting as the empty list; the console gets no line from the
    aggregator itself. *)
Theorem fetchAllHousingData_per_series
    (host : Host) (w : World) (o1 o2 o3 o4 o5 : list FREDObservation) :
  seriesObservations (fst (fetchFREDSeries host SERIES_IDS.housePriceIndex None w)) = Some o1 ->
  seriesObservations (fst (fetchFREDSeries host SERIES_IDS.activeListings None w)) = Some o2 ->
  seriesObservations (fst (fetchFREDSeries host SERIES_IDS.buildingPermits None w)) = Some o3 ->
  seriesObservations (fst (fetchFREDSeries host SERIES_IDS.rentCPI None w)) = Some o4 ->
  seriesObservations (fst (fetchFREDSeries host SERIES_IDS.unemploymentRate None w)) = Some o5 ->
  fst (fetchAllHousingData host w) = Normal (assembled host o1 o2 o3 o4 o5).
Proof.
  intros H1 H2 H3 H4 H5.
  destruct (fetchAllHousingData_run host w) as (w5 & _ & R). cbv beta zeta in R.
  rewrite R, H1, H2, H3, H4, H5. reflexivity.
Qed.

(** X8. One body without observations blanks the whole dashboard: if a
    request is answered successfully with a body that has no observations
    member, the payload is the all-"N/A" literal, whatever the other
    series brought, and the last line of the console is the error of the
    assembly. *)
Theorem fetchAllHousingData_malformed_body
    (host : Host) (w : World) (seriesId : string) :
  In seriesId seriesInCallOrder ->
  seriesObservations (fst (fetchFREDSeries host seriesId None w)) = None ->
  fst (fetchAllHousingData host w) = Normal fallback
  /\ exists before,
       console (snd (fetchAllHousingData host w)) = (before ++ [assemblyErrorLine])%list.
Proof.
  intros I H.
  destruct (fetchAllHousingData_run host w) as (w5 & _ & R). cbv beta zeta in R.
  rewrite R. clear R.
  assert (G : forall (a b c d e : option (list FREDObservation)),
            a = None \/ b = None \/ c = None \/ d = None \/ e = None ->
            match a, b, c, d, e with
            | Some o1, Some o2, Some o3, Some o4, Some o5 =>
                (Normal (assembled host o1 o2 o3 o4 o5), w5)
            | _, _, _, _, _ =>
                (Normal fallback,
                 {| requests := requests w5;
                    console := (console w5 ++ [assemblyErrorLine])%list |})
            end
            = (Normal fallback,
               {| requests := requests w5;
                  console := (console w5 ++ [assemblyErrorLine])%list |})).
  { intros [a|] [b|] [c|] [d|] [e|] D; try reflexivity.
    destruct D as [D|[D|[D|[D|D]]]]; discriminate. }
  rewrite G.
  - split; [reflexivity|]. exists (console w5). reflexivity.
  - cbn [In seriesInCallOrder] in I.
    destruct I as [<-|[<-|[<-|[<-|[<-|[]]]]]]; tauto.
Qed.

(** X9. With a credential, the aggregator sends exactly five requests,
    one per series, in the order house price index, active listings,
    building permits, rent CPI, unemployment rate, each with the five
    usual parameters and no date range, whatever the answers are. *)
Theorem fetchAllHousingData_requests
    (host : Host) (w : World) (c : ascii) (k : string) :
  FRED_API_KEY host = Some (String c k) ->
  requests (snd (fetchAllHousingData host w))
  = (requests w
     ++ map (fun seriesId => requestFor seriesId (String c k)) seriesInCallOrder)%list.
Proof.
  intros K.
  assert (S : forall seriesId w',
            requests (snd (fetchFREDSeries host seriesId None w'))
            = (requests w' ++ [requestFor seriesId (String c k)])%list).
  { intros seriesId w'.
    rewrite (fetchFREDSeries_sent host seriesId None c k _ w' K eq_refl).
    fold (baseQuery seriesId (String c k)). fold (requestFor seriesId (String c k)).
    destruct (fetch host _) as [e|resp]; [reflexivity|].
    destruct (ok resp); [|reflexivity]. destruct (json resp); reflexivity. }
  destruct (fetchAllHousingData_run host w) as (w5 & Q & R). cbv beta zeta in R.
  assert (T : requests (snd (fetchAllHousingData host w)) = requests w5).
  { rewrite R.
    destruct (seriesObservations _); [|reflexivity].
    destruct (seriesObservations _); [|reflexivity].
    destruct (seriesObservations _); [|reflexivity].
    destruct (seriesObservations _); [|reflexivity].
    destruct (seriesObservations _); reflexivity. }
  rewrite T, Q, !S. cbn [map seriesInCallOrder]. rewrite <- !app_assoc. reflexivity.
Qed.

(** ** The route handler *)

Section RouteHandler.

Lemma startsWith_spec (p s r : string) :
  Text.startsWith p s = Some r <-> s = p ++ r.
Proof.
  revert s. induction p as [|a p IH]; intros s; cbn [Text.startsWith append].
  - split; [intros [= ->]; reflexivity|intros ->; reflexivity].
  - destruct s as [|b s]; [split; discriminate|].
    destruct (Ascii.eqb_spec a b) as [->|N].
    + rewrite IH. split; [intros ->; reflexivity|intros [= ->]; reflexivity].
    + split; [discriminate|]. intros [= E _]. congruence.
Qed.

(** [includes] finds the needle exactly when the text contains it. *)
Lemma includes_spec (needle s : string) :
  Route.includes needle s = true <-> exists a b, s = a ++ needle ++ b.
Proof.
  induction s as [|c s IH]; cbn [Route.includes].
  - destruct (Text.startsWith needle "") as [r|] eqn:E.
    + apply startsWith_spec in E. split; [|reflexivity].
      intros _. exists "", r. exact E.
    + split; [discriminate|]. intros (a & b & H).
      destruct a; [|discriminate].
      assert (Text.startsWith needle "" = Some b) by (apply startsWith_spec; exact H).
      congruence.
  - destruct (Text.startsWith needle (String c s)) as [r|] eqn:E.
    + apply startsWith_spec in E. split; [|reflexivity].
      intros _. exists "", r. exact E.
    + rewrite IH. split.
      * intros (a & b & ->). exists (String c a), b. reflexivity.
      * intros (a & b & H). destruct a as [|x a].
        -- assert (Text.startsWith needle (String c s) = Some b)
             by (apply startsWith_spec; exact H).
           congruence.
        -- injection H as _ ->. exists a, b. reflexivity.
Qed.

End RouteHandler.

(** X10. Served by the live aggregator, the route always answers with
    status 200, the Cache-Control header and the payload of the
    aggregator, and writes nothing to the console itself: its two error
    answers are never produced. Without the credential the answer is
    still 200, with the all-"N/A" payload. *)
Theorem GET_live (host : Host) (w : World) :
  (exists d w',
     fetchAllHousingData host w = (Normal d, w')
     /\ Route.GET (fetchAllHousingData host) w
        = (Normal {| Route.status := 200;
                     Route.headers :=
                       [("Cache-Control", "public, s-maxage=3600, stale-while-revalidate=7200")];
                     Route.body := Route.Payload d |}, w'))
  /\ (FRED_API_KEY host = None ->
      Route.GET (fetchAllHousingData host) w
      = (Normal {| Route.status := 200;
                   Route.headers :=
                     [("Cache-Control", "public, s-maxage=3600, stale-while-revalidate=7200")];
                   Route.body := Route.Payload fallback |}, w)).
Proof.
  split.
  - destruct (fetchAllHousingData_run host w) as (w5 & _ & R). cbv beta zeta in R.
    assert (E : exists d w', fetchAllHousingData host w = (Normal d, w')).
    { rewrite R.
      destruct (seriesObservations _); [|eexists; eexists; reflexivity].
      destruct (seriesObservations _); [|eexists; eexists; reflexivity].
      destruct (seriesObservations _); [|eexists; eexists; reflexivity].
      destruct (seriesObservations _); [|eexists; eexists; reflexivity].
      destruct (seriesObservations _); eexists; eexists; reflexivity. }
    destruct E as (d & w' & E). exists d, w'. split; [exact E|].
    unfold Route.GET, tryCatch, bind. rewrite E. reflexivity.
  - intros K. unfold Route.GET, tryCatch, bind.
    rewrite (fetchAllHousingData_keyless host w (or_introl K)). reflexivity.
Qed.

(** X11. When the function the route imports throws an error, the answer
    has status 500 and the error "Failed to fetch housing data", and one
    line is written to the console. The answer carries the details "API
    key configuration error" exactly when the message of the error
    contains the text FRED_API_KEY. *)
Theorem GET_failure (impl : M HousingData) (e : JsError) (w w' : World) :
  impl w = (Throw e, w') ->
  exists details,
    Route.GET impl w
    = (Normal {| Route.status := 500; Route.headers := [];
                 Route.body := Route.Failure "Failed to fetch housing data" details |},
       {| requests := requests w';
          console := (console w' ++ [("Error fetching housing data: " ++ message e)%string])%list |})
    /\ (details = Some "API key configuration error"
        <-> exists a b, message e = a ++ "FRED_API_KEY" ++ b)
    /\ (details = None \/ details = Some "API key configuration error").
Proof.
  intros H. unfold Route.GET, tryCatch, bind at 1. rewrite H.
  cbv beta iota delta [bind consoleError ret].
  pose proof (includes_spec "FRED_API_KEY" (message e)) as S.
  destruct (Route.includes "FRED_API_KEY" (message e)).
  - eexists. split; [reflexivity|]. split; [|right; reflexivity].
    split; [intros _; apply S; reflexivity|reflexivity].
  - eexists. split; [reflexivity|]. split; [|left; reflexivity].
    split; [discriminate|]. intros X. apply S in X. discriminate.
Qed.

(** ** The page *)

(** X12. When fetchData has run to its end the page is never left
    loading. After a response that is a success with a readable body the
    payload is held and no error; after a response that is not a success
    the error is "Failed to fetch housing data", whatever the body says;
    and after any failure the payload held before the request is still
    held. *)
Theorem fetchData_settles (outcome : Page.PageFetch) (s : Page.State) :
  Page.loading (Page.fetchData outcome s) = false
  /\ (forall r d, outcome = Page.FetchResolves r -> Page.ok r = true ->
        Page.json r = Page.JsonValue d ->
        Page.fetchData outcome s
        = {| Page.data := Some d; Page.loading := false; Page.error := None |})
  /\ (forall r, outcome = Page.FetchResolves r -> Page.ok r = false ->
        Page.fetchData outcome s
        = {| Page.data := Page.data s; Page.loading := false;
             Page.error := Some "Failed to fetch housing data" |})
  /\ (Page.error (Page.fetchData outcome s) <> None ->
      Page.data (Page.fetchData outcome s) = Page.data s).
Proof.
  repeat split.
  - unfold Page.fetchData. destruct (Page.tryBody outcome (Page.requesting s)) as [s1 t].
    reflexivity.
  - intros r d -> O J. unfold Page.fetchData, Page.tryBody. rewrite O, J. reflexivity.
  - intros r -> O. unfold Page.fetchData, Page.tryBody. rewrite O. reflexivity.
  - unfold Page.fetchData, Page.tryBody.
    destruct outcome as [[m|]|r]; try reflexivity.
    destruct (Page.ok r); [|reflexivity].
    destruct (Page.json r) as [[m|]|d]; try reflexivity.
    cbn. intros H. contradiction.
Qed.

(** X13. What the page draws. While the request is in flight it draws the
    spinner, even over a payload it holds. After a success it draws the
    dashboard of the new payload. After a failure whose error has a
    message that is not empty it draws the error panel with that
    message, even when it still holds an earlier payload. An error whose
    message is empty is not shown: the page then draws the dashboard of
    the payload it held before, or nothing when it held none. *)
Theorem render_fetchData (s : Page.State) :
  Page.render (Page.requesting s) = Page.Spinner
  /\ (forall r d, Page.ok r = true -> Page.json r = Page.JsonValue d ->
        Page.render (Page.fetchData (Page.FetchResolves r) s) = Page.Dashboard d)
  /\ (forall r, Page.ok r = false ->
        Page.render (Page.fetchData (Page.FetchResolves r) s)
        = Page.ErrorPanel "Failed to fetch housing data")
  /\ (forall c m,
        Page.render (Page.fetchData (Page.FetchRejects (Page.ThrownError (String c m))) s)
        = Page.ErrorPanel (String c m))
  /\ Page.render (Page.fetchData (Page.FetchRejects Page.ThrownOther) s)
     = Page.ErrorPanel "An error occurred"
  /\ Page.render (Page.fetchData (Page.FetchRejects (Page.ThrownError "")) s)
     = match Page.data s with
       | Some d => Page.Dashboard d
       | None => Page.Nothing
       end.
Proof.
  repeat split.
  - intros r d O J. unfold Page.fetchData, Page.tryBody. rewrite O, J. reflexivity.
  - intros r O. unfold Page.fetchData, Page.tryBody. rewrite O. reflexivity.
Qed.

(** ** The metric card *)

(** X14. The icon and the change text of a card always have the same
    colour. For the unemployment metric a change read as negative gives
    the up-trend icon in green; for any other metric it gives the
    down-trend icon in red; a change read as zero gives the gray minus
    for every metric. *)
Theorem MetricCard_colours (m : HousingMetric) (changeText metricId : string) :
  snd (MetricCard.getIcon m) = "h-4 w-4 " ++ MetricCard.getChangeColor m
  /\ (changeType m = getChangeType changeText metricId ->
      lt (parseFloat changeText) zero = true ->
      MetricCard.getIcon m
      = if String.eqb metricId "unemployment"
        then (MetricCard.TrendingUp, "h-4 w-4 text-green-600")
        else (MetricCard.TrendingDown, "h-4 w-4 text-red-600"))
  /\ (changeType m = getChangeType changeText metricId ->
      strictEq (parseFloat changeText) zero = true ->
      MetricCard.getIcon m = (MetricCard.Minus, "h-4 w-4 text-gray-600")).
Proof.
  split; [destruct m as [i t v c [] d]; reflexivity|]. split.
  - intros E L. unfold MetricCard.getIcon. rewrite E. unfold getChangeType.
    destruct (lt_zero_cases _ L) as [Z G]. rewrite Z, L, G.
    destruct (String.eqb metricId "unemployment"); [reflexivity|].
    destruct (String.eqb metricId "inventory"); reflexivity.
  - intros E Z. unfold MetricCard.getIcon. rewrite E. unfold getChangeType.
    rewrite Z. reflexivity.
Qed.

(** ** The Metric Summarizer: gaps, guards and malformed values *)

Section Summaries.

Variable host : Host.

Lemma filter_isValid_idempotent (obs : list FREDObservation) :
  filter isValid (filter isValid obs) = filter isValid obs.
Proof.
  induction obs as [|o l IH]; [reflexivity|]. cbn [filter].
  destruct (isValid o) eqn:V; [|exact IH]. cbn [filter]. rewrite V, IH. reflexivity.
Qed.

Lemma find_filter_isValid (obs : list FREDObservation) :
  find isValid (filter isValid obs) = find isValid obs.
Proof.
  induction obs as [|o l IH]; [reflexivity|]. cbn [filter find].
  destruct (isValid o) eqn:V; [|exact IH]. cbn [find]. rewrite V. reflexivity.
Qed.

Lemma findYearAgo_filter (target : option Z) (obs : list FREDObservation) :
  findYearAgo host target (filter isValid obs) = findYearAgo host target obs.
Proof.
  induction obs as [|o l IH]; [reflexivity|]. cbn [filter findYearAgo].
  destruct (isValid o) eqn:V; [|exact IH]. cbn [findYearAgo]. rewrite V, IH. reflexivity.
Qed.

Lemma getLatestValue_filter (obs : list FREDObservation) :
  getLatestValue (filter isValid obs) = getLatestValue obs.
Proof.
  rewrite !getLatestValue_find, <- filter_rev, find_filter_isValid. reflexivity.
Qed.

Lemma filter_all_invalid (l : list FREDObservation) :
  forallb (fun x => negb (isValid x)) l = true -> filter isValid l = [].
Proof.
  induction l as [|x l IH]; [reflexivity|]. cbn [forallb filter].
  intros H. apply andb_prop in H as [X L]. apply negb_true_iff in X.
  rewrite X. exact (IH L).
Qed.

End Summaries.

(** X15. Missing observations are transparent: removing from the input
    every observation whose value is "." or empty changes neither the
    chart points, nor the latest value, nor the month-over-month change,
    nor the year-over-year change. *)
Theorem missing_observations_transparent
    (host : Host) (obs : list FREDObservation) (limit : option Z) :
  transformFREDData host (filter isValid obs) limit = transformFREDData host obs limit
  /\ getLatestValue (filter isValid obs) = getLatestValue obs
  /\ getMonthOverMonthChange (filter isValid obs) = getMonthOverMonthChange obs
  /\ getYearOverYearChange host (filter isValid obs) = getYearOverYearChange host obs.
Proof.
  repeat split.
  - unfold transformFREDData. rewrite filter_isValid_idempotent. reflexivity.
  - apply getLatestValue_filter.
  - unfold getMonthOverMonthChange. rewrite filter_isValid_idempotent. reflexivity.
  - unfold getYearOverYearChange.
    rewrite getLatestValue_filter, findYearAgo_filter. reflexivity.
Qed.

(** X16. The month-over-month change compares the last two valid
    observations, whatever missing observations lie between and after
    them; with fewer than two valid observations it is "+0.0%". *)
Theorem getMonthOverMonthChange_last_two (obs : list FREDObservation) :
  ((List.length (filter isValid obs) < 2)%nat -> getMonthOverMonthChange obs = "+0.0%")
  /\ (forall before p between l after,
        obs = (before ++ p :: between ++ l :: after)%list ->
        isValid p = true -> isValid l = true ->
        forallb (fun x => negb (isValid x)) between = true ->
        forallb (fun x => negb (isValid x)) after = true ->
        getMonthOverMonthChange obs
        = calculatePercentageChange (parseFloat (value p)) (parseFloat (value l))).
Proof.
  split.
  - intros H. unfold getMonthOverMonthChange.
    replace (List.length (filter isValid obs) <? 2)%nat with true
      by (symmetry; apply Nat.ltb_lt; exact H).
    reflexivity.
  - intros before p between l after -> P L B A. unfold getMonthOverMonthChange.
    assert (F : filter isValid (before ++ p :: between ++ l :: after)
                = (filter isValid before ++ [p; l])%list).
    { rewrite filter_app. cbn [filter]. rewrite P, filter_app. cbn [filter].
      rewrite L, (filter_all_invalid between B), (filter_all_invalid after A).
      reflexivity. }
    rewrite F. set (v := filter isValid before).
    rewrite length_app. cbn [List.length].
    replace (List.length v + 2 <? 2)%nat with false
      by (symmetry; apply Nat.ltb_ge; lia).
    replace (List.length v + 2 - 1)%nat with (List.length v + 1)%nat by lia.
    replace (List.length v + 2 - 2)%nat with (List.length v + 0)%nat by lia.
    rewrite !nth_error_app2 by lia.
    replace (List.length v + 1 - List.length v)%nat with 1%nat by lia.
    replace (List.length v + 0 - List.length v)%nat with 0%nat by lia.
    reflexivity.
Qed.

(** X17. The guards of the year-over-year change: it is "+0.0%" when the
    latest valid value is zero or not a number, and when no valid
    observation has a date that Date can read, whatever the values
    are. *)
Theorem getYearOverYearChange_guards (host : Host) (obs : list FREDObservation) :
  (forall latest, getLatestValue obs = Some latest -> truthy latest = false ->
     getYearOverYearChange host obs = "+0.0%")
  /\ ((forall o, In o obs -> isValid o = true ->
         JsDate.parse (zone host) (date o) = None) ->
      getYearOverYearChange host obs = "+0.0%").
Proof.
  split.
  - intros latest L T. unfold getYearOverYearChange. rewrite L, T. reflexivity.
  - intros H. unfold getYearOverYearChange.
    destruct (getLatestValue obs) as [latest|]; [|reflexivity].
    destruct (truthy latest); [|reflexivity]. cbn [negb].
    rewrite (findYearAgo_none host (yearAgoTarget host) obs); [reflexivity|].
    intros o I V. rewrite (H o I V). reflexivity.
Qed.

(** X18. The latest value is read from the last observation that is not
    missing, whatever follows it, and there is none exactly when every
    observation is missing. *)
Theorem getLatestValue_scan (obs : list FREDObservation) :
  (forall before o after,
     obs = (before ++ o :: after)%list -> isValid o = true ->
     forallb (fun x => negb (isValid x)) after = true ->
     getLatestValue obs = Some (parseFloat (value o)))
  /\ (getLatestValue obs = None <-> forall o, In o obs -> isValid o = false).
Proof.
  split.
  - intros before o after -> V A. apply getLatestValue_last_valid; assumption.
  - rewrite getLatestValue_none. split.
    + intros F o I. destruct (isValid o) eqn:V; [|reflexivity].
      assert (X : In o (filter isValid obs)) by (apply filter_In; split; assumption).
      rewrite F in X. destruct X.
    + intros H. induction obs as [|x l IH]; [reflexivity|]. cbn [filter].
      rewrite (H x (or_introl eq_refl)). apply IH. intros o I. apply H. right. exact I.
Qed.

(** X19. A value that is not a number spreads: when the prior or the new
    value is NaN (the prior one not being zero), the percentage change is
    the text "NaN%", without sign, and that text is classified negative
    for every metric. *)
Theorem not_a_number_change (oldValue newValue : number) (metricId : string) :
  oldValue = nan \/ (newValue = nan /\ strictEq oldValue zero = false) ->
  calculatePercentageChange oldValue newValue = "NaN%"
  /\ getChangeType (calculatePercentageChange oldValue newValue) metricId
     = ChangeType.negative.
Proof.
  intros H.
  assert (E : calculatePercentageChange oldValue newValue = "NaN%").
  { unfold calculatePercentageChange. destruct H as [->|[-> Z]].
    - destruct newValue; reflexivity.
    - rewrite Z. destruct oldValue as [s|s| |s m e]; reflexivity. }
  split; [exact E|]. rewrite E. unfold getChangeType.
  replace (parseFloat "NaN%") with nan by (vm_compute; reflexivity).
  cbn [strictEq SFeqb SFcompare nan lt gt SFltb zero].
  destruct (String.eqb metricId "unemployment"); [reflexivity|].
  destruct (String.eqb metricId "inventory"); reflexivity.
Qed.

(** X20. A negative limit does not keep the last points: with a limit
    n < 0 transformFREDData drops the first -n valid points and returns
    all the others. *)
Theorem transformFREDData_negative_limit
    (host : Host) (obs : list FREDObservation) (n : Z) :
  n < 0 ->
  transformFREDData host obs (Some n)
  = skipn (Z.to_nat (- n)) (transformFREDData host obs None).
Proof.
  intros H. unfold transformFREDData.
  replace (n =? 0) with false by (symmetry; apply Z.eqb_neq; lia).
  rewrite skipn_map. f_equal. unfold slice.
  replace (- n <? 0) with false by (symmetry; apply Z.ltb_ge; lia).
  set (len := List.length (filter isValid obs)).
  destruct (Z.le_gt_cases (- n) (Z.of_nat len)) as [L|G].
  - rewrite Z.min_l by lia. reflexivity.
  - rewrite Z.min_r by lia. rewrite Nat2Z.id.
    transitivity (@nil FREDObservation).
    + apply skipn_all2. fold len. lia.
    + symmetry. apply skipn_all2. fold len. lia.
Qed.

(** ** The dummy payload *)

Section DummyData.

Import JsDate.

Lemma monthOfDay_range (leap : bool) (d : Z) (fuel : nat) :
  forall m, m <= monthOfDay leap d fuel m <= m + Z.of_nat fuel.
Proof.
  induction fuel as [|k IH]; intros m; cbn [monthOfDay]; [lia|].
  destruct (d <? monthStart leap (m + 1)); [lia|].
  specialize (IH (m + 1)). lia.
Qed.

(** The fields of a time value give back its day. *)
Lemma MakeDay_of_fields (t : Z) :
  MakeDay (YearFromTime t) (MonthFromTime t) (DateFromTime t) = Day t.
Proof.
  pose proof (monthOfDay_range (InLeapYear t) (DayWithinYear t) 11 0) as R.
  fold (MonthFromTime t) in R.
  unfold MakeDay, DateFromTime.
  replace (MonthFromTime t / 12) with 0 by lia_div.
  replace (MonthFromTime t mod 12) with (MonthFromTime t) by lia_div.
  rewrite Z.add_0_r. fold (InLeapYear t). unfold DayWithinYear. lia.
Qed.

Variable zone : Zone.

(** Moving a date by no month leaves it where it is, on a host whose
    offsets at the local and at the UTC reading of the instant agree. *)
Lemma setMonth_same (t : Z) :
  Z.abs t <= 8640000000000000 ->
  LocalTZA zone (LocalTime zone t) false = LocalTZA zone t true ->
  setMonth zone t (getMonth zone t - 0) = Some t.
Proof.
  intros V C. unfold setMonth, getMonth. rewrite Z.sub_0_r, MakeDay_of_fields.
  unfold MakeDate, Day, TimeWithinDay.
  replace (LocalTime zone t / msPerDay * msPerDay + LocalTime zone t mod msPerDay)
    with (LocalTime zone t) by (unfold msPerDay; lia_div).
  unfold UTC. rewrite C. unfold LocalTime.
  replace (t + LocalTZA zone t true - LocalTZA zone t true) with t by lia.
  unfold TimeClip.
  replace (Z.abs t <=? 8640000000000000) with true by (symmetry; apply Z.leb_le; exact V).
  reflexivity.
Qed.

Lemma dummyLoop_length (random : nat -> number) (t : Z) (b v : number) (n : nat) :
  forall k, List.length (Route.dummyLoop zone t random b v n k) = n.
Proof.
  induction n as [|i IH]; intros k; cbn [Route.dummyLoop List.length]; [reflexivity|].
  rewrite IH. reflexivity.
Qed.

Lemma dummyLoop_newest (random : nat -> number) (t : Z) (b v : number) (n : nat) :
  forall k x,
    nth n (map point_date (Route.dummyLoop zone t random b v (S n) k)) x
    = point_date (Route.dummyPoint zone t random b v 0 (k + n)).
Proof.
  induction n as [|i IH]; intros k x.
  - cbn [Route.dummyLoop map nth Z.of_nat]. rewrite Nat.add_0_r. reflexivity.
  - change (Route.dummyLoop zone t random b v (S (S i)) k)
      with (Route.dummyPoint zone t random b v (Z.of_nat (S i)) k
            :: Route.dummyLoop zone t random b v (S i) (S k)).
    cbn [map nth]. rewrite IH. f_equal. f_equal. lia.
Qed.

End DummyData.

(** X21. The dummy payload has the shape of the live one, whatever the
    clock and the random numbers: the same five metric identifiers in the
    same order, and five series of exactly 24 points. On a host whose
    clock is a valid date and whose offsets agree at that instant, the
    newest point of every series is labelled with the current month and
    year. *)
Theorem generateDummyData_shape
    (zone : JsDate.Zone) (currentDate : Z) (random : nat -> number) :
  let d := Route.generateDummyData zone currentDate random in
  let series := [housePriceIndex d; activeListings d; buildingPermits d;
                 rentCPI d; unemploymentRate d] in
  map id (metrics d) = map id (metrics fallback)
  /\ Forall (fun s => List.length s = 24%nat) series
  /\ (Z.abs currentDate <= 8640000000000000 ->
      JsDate.LocalTZA zone (JsDate.LocalTime zone currentDate) false
      = JsDate.LocalTZA zone currentDate true ->
      Forall (fun s =>
                nth 23 (map point_date s) ""
                = nth (Z.to_nat (JsDate.getMonth zone currentDate)) months "undefined"
                  ++ " " ++ Text.intString (JsDate.getFullYear zone currentDate))
             series).
Proof.
  intros d series. split; [reflexivity|]. split.
  - unfold series, d, Route.generateDummyData, Route.generateTimeSeries.
    cbn [housePriceIndex activeListings buildingPermits rentCPI unemploymentRate].
    repeat (constructor; [apply dummyLoop_length|]). constructor.
  - intros V C.
    assert (P : forall b v k,
              nth 23 (map point_date (Route.dummyLoop zone currentDate random b v 24 k)) ""
              = nth (Z.to_nat (JsDate.getMonth zone currentDate)) months "undefined"
                ++ " " ++ Text.intString (JsDate.getFullYear zone currentDate)).
    { intros b v k. rewrite dummyLoop_newest. unfold Route.dummyPoint.
      cbn [point_date]. rewrite (setMonth_same zone currentDate V C). reflexivity. }
    unfold series, d, Route.generateDummyData, Route.generateTimeSeries.
    cbn [housePriceIndex activeListings buildingPermits rentCPI unemploymentRate].
    repeat (constructor; [apply P|]). constructor.
Qed.

(** ** The further properties at the data of the test-suite *)

Lemma fetchFREDSeries_returns_body_witness :
  let host := Sample.served Sample.january2024 in
  let resp := {| ok := true; status := 200; statusText := "OK";
                 json := BodyJson {| observations := Some Sample.mockHPI |} |} in
  (FRED_API_KEY host = Some "test-api-key"
   /\ (@None Z = None \/ @None Z = Some 0)
   /\ fetch host (requestFor SERIES_IDS.housePriceIndex "test-api-key") = Resolves resp
   /\ ok resp = true
   /\ json resp = BodyJson {| observations := Some Sample.mockHPI |})
  /\ fetchFREDSeries host SERIES_IDS.housePriceIndex None Sample.emptyWorld
     = (Normal {| observations := Some Sample.mockHPI |},
        {| requests := [requestFor SERIES_IDS.housePriceIndex "test-api-key"];
           console := [] |}).
Proof.
  intros host resp.
  assert (F : fetch host (requestFor SERIES_IDS.housePriceIndex "test-api-key")
              = Resolves resp) by reflexivity.
  split; [exact (conj eq_refl (conj (or_introl eq_refl) (conj F (conj eq_refl eq_refl))))|].
  exact (fetchFREDSeries_returns_body host SERIES_IDS.housePriceIndex None
           "t"%char "est-api-key" resp {| observations := Some Sample.mockHPI |}
           Sample.emptyWorld eq_refl (or_introl eq_refl) F eq_refl eq_refl).
Defined.

Lemma fetchFREDSeries_failure_logged_witness :
  let lost := Sample.hostAt Sample.utc Sample.january2024 in
  let sid := SERIES_IDS.activeListings in
  let req := requestFor sid "test-api-key" in
  (FRED_API_KEY lost = Some "test-api-key"
   /\ buildParams lost sid "test-api-key" None = Normal (baseQuery sid "test-api-key")
   /\ fetch lost req = Rejects {| message := "API Error" |})
  /\ fetchFREDSeries lost sid None Sample.emptyWorld
     = (Throw {| message := "API Error" |},
        {| requests := [req];
           console := ["Error fetching FRED series ACTLISCOU26420: API Error"] |})
  /\ (FRED_API_KEY Scenario.refusing = Some "test-api-key"
      /\ buildParams Scenario.refusing sid "test-api-key" None
         = Normal (baseQuery sid "test-api-key")
      /\ ok {| ok := false; status := 400; statusText := "Bad Request";
               json := BodyJson {| observations := None |} |} = false)
  /\ fetchFREDSeries Scenario.refusing sid None Sample.emptyWorld
     = (Throw {| message := "FRED API error: 400 Bad Request" |},
        {| requests := [req];
           console :=
             ["Error fetching FRED series ACTLISCOU26420: FRED API error: 400 Bad Request"] |})
  /\ (FRED_API_KEY Scenario.garbled = Some "test-api-key"
      /\ buildParams Scenario.garbled sid "test-api-key" None
         = Normal (baseQuery sid "test-api-key"))
  /\ fetchFREDSeries Scenario.garbled sid None Sample.emptyWorld
     = (Throw {| message := "Unexpected token <" |},
        {| requests := [req];
           console := ["Error fetching FRED series ACTLISCOU26420: Unexpected token <"] |}).
Proof.
  intros lost sid req.
  split; [exact (conj eq_refl (conj eq_refl eq_refl))|].
  split; [exact (proj1 (fetchFREDSeries_failure_logged lost sid None "t"%char "est-api-key"
                          (baseQuery sid "test-api-key") Sample.emptyWorld eq_refl eq_refl)
                   {| message := "API Error" |} eq_refl)|].
  split; [exact (conj eq_refl (conj eq_refl eq_refl))|].
  split; [exact (proj1 (proj2 (fetchFREDSeries_failure_logged Scenario.refusing sid None
                                 "t"%char "est-api-key" (baseQuery sid "test-api-key")
                                 Sample.emptyWorld eq_refl eq_refl))
                   _ eq_refl eq_refl)|].
  split; [exact (conj eq_refl eq_refl)|].
  exact (proj2 (proj2 (fetchFREDSeries_failure_logged Scenario.garbled sid None
                         "t"%char "est-api-key" (baseQuery sid "test-api-key")
                         Sample.emptyWorld eq_refl eq_refl))
           _ {| message := "Unexpected token <" |} eq_refl eq_refl eq_refl).
Defined.

Lemma fetchFREDSeries_empty_key_witness :
  FRED_API_KEY Scenario.emptyKey = Some ""
  /\ fetchFREDSeries Scenario.emptyKey SERIES_IDS.rentCPI (Some 12) Sample.emptyWorld
     = (Throw configurationError, Sample.emptyWorld).
Proof.
  split; [reflexivity|].
  exact (fetchFREDSeries_empty_key Scenario.emptyKey SERIES_IDS.rentCPI (Some 12)
           Sample.emptyWorld eq_refl).
Defined.

Lemma fetchFREDSeries_date_range_witness :
  let host := Sample.served Sample.january2024 in
  (FRED_API_KEY host = Some "test-api-key" /\ 24 <> 0
   /\ JsDate.setMonth (zone host) (now host) (JsDate.getMonth (zone host) (now host) - 24)
      = Some 1642248000000)
  /\ requests (snd (fetchFREDSeries host SERIES_IDS.housePriceIndex (Some 24) Sample.emptyWorld))
     = [{| endpoint := FRED_BASE_URL;
           query := (baseQuery SERIES_IDS.housePriceIndex "test-api-key"
                     ++ [("observation_start", "2022-01-15");
                         ("observation_end", "2024-01-15")])%list |}]
  /\ (4000000000 <> 0
      /\ JsDate.setMonth (zone host) (now host)
           (JsDate.getMonth (zone host) (now host) - 4000000000) = None)
  /\ fetchFREDSeries host SERIES_IDS.housePriceIndex (Some 4000000000) Sample.emptyWorld
     = (Throw {| message := "Invalid time value" |}, Sample.emptyWorld).
Proof.
  intros host.
  assert (N1 : 24 <> 0) by discriminate.
  assert (N2 : 4000000000 <> 0) by discriminate.
  assert (S1 : JsDate.setMonth (zone host) (now host)
                 (JsDate.getMonth (zone host) (now host) - 24) = Some 1642248000000)
    by (vm_compute; reflexivity).
  assert (S2 : JsDate.setMonth (zone host) (now host)
                 (JsDate.getMonth (zone host) (now host) - 4000000000) = None)
    by (vm_compute; reflexivity).
  split; [exact (conj eq_refl (conj N1 S1))|].
  split; [exact (proj2 (fetchFREDSeries_date_range host SERIES_IDS.housePriceIndex 24
                          "t"%char "est-api-key" Sample.emptyWorld eq_refl N1)
                   1642248000000 S1)|].
  split; [exact (conj N2 S2)|].
  exact (proj1 (fetchFREDSeries_date_range host SERIES_IDS.housePriceIndex 4000000000
                  "t"%char "est-api-key" Sample.emptyWorld eq_refl N2) S2).
Defined.

Lemma fetchAllHousingData_all_without_data_witness :
  (forall seriesId, In seriesId seriesInCallOrder ->
     noValidData (fst (fetchFREDSeries Scenario.refusing seriesId None Sample.emptyWorld)))
  /\ fst (fetchAllHousingData Scenario.refusing Sample.emptyWorld) = Normal fallback.
Proof.
  assert (H : forall seriesId, In seriesId seriesInCallOrder ->
     noValidData (fst (fetchFREDSeries Scenario.refusing seriesId None Sample.emptyWorld)))
    by (intros seriesId _; exact I).
  split; [exact H|].
  exact (fetchAllHousingData_all_without_data Scenario.refusing Sample.emptyWorld H).
Defined.

Lemma fetchAllHousingData_without_key_witness :
  (FRED_API_KEY Sample.withoutKey = None \/ FRED_API_KEY Sample.withoutKey = Some "")
  /\ fetchAllHousingData Sample.withoutKey Sample.emptyWorld
     = (Normal fallback, Sample.emptyWorld).
Proof.
  split; [left; reflexivity|].
  exact (fetchAllHousingData_without_key Sample.withoutKey Sample.emptyWorld
           (or_introl eq_refl)).
Defined.

Lemma fetchAllHousingData_per_series_witness :
  let host := Sample.hostAt Sample.utc Sample.january2024 in
  let c := fun seriesId => fst (fetchFREDSeries host seriesId None Sample.emptyWorld) in
  (seriesObservations (c SERIES_IDS.housePriceIndex) = Some Sample.mockHPI
   /\ seriesObservations (c SERIES_IDS.activeListings) = Some []
   /\ seriesObservations (c SERIES_IDS.buildingPermits) = Some []
   /\ seriesObservations (c SERIES_IDS.rentCPI) = Some []
   /\ seriesObservations (c SERIES_IDS.unemploymentRate) = Some [])
  /\ fst (fetchAllHousingData host Sample.emptyWorld)
     = Normal (assembled host Sample.mockHPI [] [] [] []).
Proof.
  intros host c.
  split; [exact (conj eq_refl (conj eq_refl (conj eq_refl (conj eq_refl eq_refl))))|].
  exact (fetchAllHousingData_per_series host Sample.emptyWorld Sample.mockHPI [] [] [] []
           eq_refl eq_refl eq_refl eq_refl eq_refl).
Defined.

Lemma fetchAllHousingData_malformed_body_witness :
  (In SERIES_IDS.rentCPI seriesInCallOrder
   /\ seriesObservations
        (fst (fetchFREDSeries Scenario.malformed SERIES_IDS.rentCPI None Sample.emptyWorld))
      = None)
  /\ fst (fetchAllHousingData Scenario.malformed Sample.emptyWorld) = Normal fallback
  /\ exists before,
       console (snd (fetchAllHousingData Scenario.malformed Sample.emptyWorld))
       = (before ++ [assemblyErrorLine])%list.
Proof.
  assert (I : In SERIES_IDS.rentCPI seriesInCallOrder)
    by (right; right; right; left; reflexivity).
  split; [exact (conj I eq_refl)|].
  exact (fetchAllHousingData_malformed_body Scenario.malformed Sample.emptyWorld
           SERIES_IDS.rentCPI I eq_refl).
Defined.

Lemma fetchAllHousingData_requests_witness :
  let host := Sample.served Sample.january2024 in
  FRED_API_KEY host = Some "test-api-key"
  /\ requests (snd (fetchAllHousingData host Sample.emptyWorld))
     = map (fun seriesId => requestFor seriesId "test-api-key") seriesInCallOrder.
Proof.
  intros host. split; [reflexivity|].
  exact (fetchAllHousingData_requests host Sample.emptyWorld "t"%char "est-api-key" eq_refl).
Defined.

Lemma GET_live_witness :
  FRED_API_KEY Sample.withoutKey = None
  /\ Route.GET (fetchAllHousingData Sample.withoutKey) Sample.emptyWorld
     = (Normal {| Route.status := 200;
                  Route.headers :=
                    [("Cache-Control", "public, s-maxage=3600, stale-while-revalidate=7200")];
                  Route.body := Route.Payload fallback |}, Sample.emptyWorld).
Proof.
  split; [reflexivity|].
  exact (proj2 (GET_live Sample.withoutKey Sample.emptyWorld) eq_refl).
Defined.

Lemma GET_failure_witness :
  Effect.throw configurationError Sample.emptyWorld
  = (@Throw HousingData configurationError, Sample.emptyWorld)
  /\ exists details,
       Route.GET (Effect.throw configurationError) Sample.emptyWorld
       = (Normal {| Route.status := 500; Route.headers := [];
                    Route.body := Route.Failure "Failed to fetch housing data" details |},
          {| requests := [];
             console := ["Error fetching housing data: FRED_API_KEY environment variable is not set"] |})
       /\ (details = Some "API key configuration error"
           <-> exists a b, message configurationError = a ++ "FRED_API_KEY" ++ b)
       /\ (details = None \/ details = Some "API key configuration error").
Proof.
  split; [reflexivity|].
  exact (GET_failure (Effect.throw configurationError) configurationError
           Sample.emptyWorld Sample.emptyWorld eq_refl).
Defined.

Lemma fetchData_settles_witness :
  let d := fallback in
  let good := {| Page.ok := true; Page.json := Page.JsonValue d |} in
  let bad := {| Page.ok := false; Page.json := Page.JsonValue d |} in
  (Page.ok good = true /\ Page.json good = Page.JsonValue d)
  /\ Page.fetchData (Page.FetchResolves good) Page.initialState
     = {| Page.data := Some d; Page.loading := false; Page.error := None |}
  /\ Page.ok bad = false
  /\ Page.fetchData (Page.FetchResolves bad) (Scenario.showing d)
     = {| Page.data := Some d; Page.loading := false;
          Page.error := Some "Failed to fetch housing data" |}
  /\ Page.error (Page.fetchData (Page.FetchResolves bad) (Scenario.showing d)) <> None
  /\ Page.data (Page.fetchData (Page.FetchResolves bad) (Scenario.showing d)) = Some d.
Proof.
  intros d good bad.
  assert (E : Page.error (Page.fetchData (Page.FetchResolves bad) (Scenario.showing d)) <> None)
    by discriminate.
  split; [exact (conj eq_refl eq_refl)|].
  split; [exact (proj1 (proj2 (fetchData_settles (Page.FetchResolves good) Page.initialState))
                   good d eq_refl eq_refl eq_refl)|].
  split; [reflexivity|].
  split; [exact (proj1 (proj2 (proj2 (fetchData_settles (Page.FetchResolves bad)
                                        (Scenario.showing d))))
                   bad eq_refl eq_refl)|].
  split; [exact E|].
  exact (proj2 (proj2 (proj2 (fetchData_settles (Page.FetchResolves bad)
                                (Scenario.showing d)))) E).
Defined.

Lemma render_fetchData_witness :
  let d := fallback in
  let good := {| Page.ok := true; Page.json := Page.JsonValue d |} in
  let bad := {| Page.ok := false; Page.json := Page.JsonValue d |} in
  (Page.ok good = true /\ Page.json good = Page.JsonValue d)
  /\ Page.render (Page.fetchData (Page.FetchResolves good) Page.initialState)
     = Page.Dashboard d
  /\ Page.ok bad = false
  /\ Page.render (Page.fetchData (Page.FetchResolves bad) (Scenario.showing d))
     = Page.ErrorPanel "Failed to fetch housing data".
Proof.
  intros d good bad.
  split; [exact (conj eq_refl eq_refl)|].
  split; [exact (proj1 (proj2 (render_fetchData Page.initialState))
                   good d eq_refl eq_refl)|].
  split; [reflexivity|].
  exact (proj1 (proj2 (proj2 (render_fetchData (Scenario.showing d)))) bad eq_refl).
Defined.

Lemma MetricCard_colours_witness :
  let card := fun change metricId =>
    {| id := metricId; title := ""; metric_value := ""; change := change;
       changeType := getChangeType change metricId; description := "" |} in
  (lt (parseFloat "-7.3%") zero = true
   /\ MetricCard.getIcon (card "-7.3%" "unemployment")
      = (MetricCard.TrendingUp, "h-4 w-4 text-green-600"))
  /\ (lt (parseFloat "-1.2%") zero = true
      /\ MetricCard.getIcon (card "-1.2%" "inventory")
         = (MetricCard.TrendingDown, "h-4 w-4 text-red-600"))
  /\ (strictEq (parseFloat "+0.0%") zero = true
      /\ MetricCard.getIcon (card "+0.0%" "hpi")
         = (MetricCard.Minus, "h-4 w-4 text-gray-600")).
Proof.
  intros card.
  assert (L1 : lt (parseFloat "-7.3%") zero = true) by (vm_compute; reflexivity).
  assert (L2 : lt (parseFloat "-1.2%") zero = true) by (vm_compute; reflexivity).
  assert (Z0 : strictEq (parseFloat "+0.0%") zero = true) by (vm_compute; reflexivity).
  split; [split; [exact L1|]|split; [split; [exact L2|]|split; [exact Z0|]]].
  - exact (proj1 (proj2 (MetricCard_colours (card "-7.3%" "unemployment")
                           "-7.3%" "unemployment")) eq_refl L1).
  - exact (proj1 (proj2 (MetricCard_colours (card "-1.2%" "inventory")
                           "-1.2%" "inventory")) eq_refl L2).
  - exact (proj2 (proj2 (MetricCard_colours (card "+0.0%" "hpi") "+0.0%" "hpi"))
             eq_refl Z0).
Defined.

Lemma getMonthOverMonthChange_last_two_witness :
  let first := Sample.observation "2023-11-01" "13000" in
  let gap := Sample.observation "2023-12-01" "." in
  let third := Sample.observation "2024-01-01" "12847" in
  let blank := Sample.observation "2024-02-01" "" in
  ((List.length (filter isValid [gap; third; blank]) < 2)%nat
   /\ getMonthOverMonthChange [gap; third; blank] = "+0.0%")
  /\ (Scenario.withGaps = ([] ++ first :: [gap] ++ third :: [blank])%list
      /\ isValid first = true /\ isValid third = true
      /\ forallb (fun x => negb (isValid x)) [gap] = true
      /\ forallb (fun x => negb (isValid x)) [blank] = true)
  /\ getMonthOverMonthChange Scenario.withGaps
     = calculatePercentageChange (parseFloat "13000") (parseFloat "12847").
Proof.
  intros first gap third blank.
  assert (S : (List.length (filter isValid [gap; third; blank]) < 2)%nat)
    by (apply Nat.ltb_lt; reflexivity).
  split; [split; [exact S|exact (proj1 (getMonthOverMonthChange_last_two _) S)]|].
  split; [exact (conj eq_refl (conj eq_refl (conj eq_refl (conj eq_refl eq_refl))))|].
  exact (proj2 (getMonthOverMonthChange_last_two Scenario.withGaps)
           [] first [gap] third [blank] eq_refl eq_refl eq_refl eq_refl eq_refl).
Defined.

Lemma getYearOverYearChange_guards_witness :
  let host := Sample.served Sample.january2024 in
  let zeros := [Sample.observation "2023-01-01" "280.0"; Sample.observation "2024-01-01" "0"] in
  let undated := [Sample.observation "not a date" "280.0";
                  Sample.observation "no date either" "284.5"] in
  (getLatestValue zeros = Some (S754_zero false) /\ truthy (S754_zero false) = false)
  /\ getYearOverYearChange host zeros = "+0.0%"
  /\ (forall o, In o undated -> isValid o = true ->
        JsDate.parse (zone host) (date o) = None)
  /\ getYearOverYearChange host undated = "+0.0%".
Proof.
  intros host zeros undated.
  assert (L : getLatestValue zeros = Some (S754_zero false)) by (vm_compute; reflexivity).
  assert (U : forall o, In o undated -> isValid o = true ->
                JsDate.parse (zone host) (date o) = None).
  { intros o [<-|[<-|[]]] _; vm_compute; reflexivity. }
  split; [exact (conj L eq_refl)|].
  split; [exact (proj1 (getYearOverYearChange_guards host zeros) _ L eq_refl)|].
  split; [exact U|].
  exact (proj2 (getYearOverYearChange_guards host undated) U).
Defined.

Lemma getLatestValue_scan_witness :
  let third := Sample.observation "2024-01-01" "12847" in
  let blank := Sample.observation "2024-02-01" "" in
  (Scenario.withGaps
   = ([Sample.observation "2023-11-01" "13000"; Sample.observation "2023-12-01" "."]
      ++ third :: [blank])%list
   /\ isValid third = true
   /\ forallb (fun x => negb (isValid x)) [blank] = true)
  /\ getLatestValue Scenario.withGaps = Some (parseFloat "12847")
  /\ (forall o, In o [blank; blank] -> isValid o = false)
  /\ getLatestValue [blank; blank] = None.
Proof.
  intros third blank.
  assert (B : forall o, In o [blank; blank] -> isValid o = false)
    by (intros o [<-|[<-|[]]]; reflexivity).
  split; [exact (conj eq_refl (conj eq_refl eq_refl))|].
  split; [exact (proj1 (getLatestValue_scan Scenario.withGaps)
                   [Sample.observation "2023-11-01" "13000";
                    Sample.observation "2023-12-01" "."]
                   third [blank] eq_refl eq_refl eq_refl)|].
  split; [exact B|].
  exact (proj2 (proj2 (getLatestValue_scan [blank; blank])) B).
Defined.

Lemma not_a_number_change_witness :
  (parseFloat "n/a" = nan
   \/ (parseFloat "12847" = nan /\ strictEq (parseFloat "n/a") zero = false))
  /\ calculatePercentageChange (parseFloat "n/a") (parseFloat "12847") = "NaN%"
  /\ getChangeType (calculatePercentageChange (parseFloat "n/a") (parseFloat "12847"))
       "inventory" = ChangeType.negative.
Proof.
  assert (N : parseFloat "n/a" = nan) by (vm_compute; reflexivity).
  split; [left; exact N|].
  exact (not_a_number_change (parseFloat "n/a") (parseFloat "12847") "inventory"
           (or_introl N)).
Defined.

Lemma transformFREDData_negative_limit_witness :
  let host := Sample.hostAt Sample.utc Sample.january2024 in
  - 1 < 0
  /\ transformFREDData host Sample.withMissing (Some (- 1))
     = skipn (Z.to_nat (- - 1)) (transformFREDData host Sample.withMissing None).
Proof.
  intros host. split; [reflexivity|].
  exact (transformFREDData_negative_limit host Sample.withMissing (- 1) eq_refl).
Defined.

Lemma generateDummyData_shape_witness :
  let series :=
    [housePriceIndex (Route.generateDummyData Sample.utc Sample.january2024 (fun _ => zero));
     unemploymentRate (Route.generateDummyData Sample.utc Sample.january2024 (fun _ => zero))] in
  (Z.abs Sample.january2024 <= 8640000000000000
   /\ JsDate.LocalTZA Sample.utc (JsDate.LocalTime Sample.utc Sample.january2024) false
      = JsDate.LocalTZA Sample.utc Sample.january2024 true)
  /\ Forall (fun s => nth 23 (map point_date s) "" = "Jan 2024") series.
Proof.
  intros series.
  assert (V : Z.abs Sample.january2024 <= 8640000000000000) by discriminate.
  split; [exact (conj V eq_refl)|].
  pose proof (proj2 (proj2 (generateDummyData_shape Sample.utc Sample.january2024
                              (fun _ => zero))) V eq_refl) as F.
  cbv zeta in F.
  constructor; [exact (Forall_inv F)|].
  constructor;
    [exact (Forall_inv (Forall_inv_tail (Forall_inv_tail
                          (Forall_inv_tail (Forall_inv_tail F)))))|].
  constructor.
Defined.

Lemma calculatePercentageChange_shape_witness :
  match mul (div (sub (ofZ 110) (ofZ 100)) (ofZ 100)) (ofZ 100) with
  | S754_zero _ => True
  | S754_finite _ m e => floorMag m e < 10 ^ 21
  | _ => strictEq (ofZ 100) zero = true
  end
  /\ signedOneDecimal (calculatePercentageChange (ofZ 100) (ofZ 110)) = true.
Proof.
  assert (H : match mul (div (sub (ofZ 110) (ofZ 100)) (ofZ 100)) (ofZ 100) with
              | S754_zero _ => True
              | S754_finite _ m e => floorMag m e < 10 ^ 21
              | _ => strictEq (ofZ 100) zero = true
              end) by (vm_compute; reflexivity).
  split; [exact H|].
  exact (calculatePercentageChange_shape (ofZ 100) (ofZ 110) H).
Defined.
